(** * A shallow embedding of the CIFAR-10 ResNet and of its training driver

    The development follows the two source files:
    - [resnet.py]: the residual block and the network assembly;
    - [train.py]: the setup function [make], [evaluate] and the epoch loop.

    Tensor arithmetic belongs to the numerical library.  The embedding
    keeps what the Python code decides: which layers are built, with which
    hyperparameters, in which order they are applied, which parameters they
    read, and how the driver threads the model, the optimizer and the
    scheduler through the epochs. *)

From Stdlib Require Import ZArith QArith Lia Ascii.
From stdpp Require Import base option list strings pretty gmap.

Local Open Scope Z_scope.

(** ** Python calls that may raise *)

Inductive exn : Type :=
| RuntimeError
| ValueError
| KeyError
| ZeroDivisionError.

Inductive result (A : Type) : Type :=
| Ok (a : A)
| Raise (e : exn).
Arguments Ok {A} a.
Arguments Raise {A} e.

#[global] Instance result_ret : MRet result := fun _ a => Ok a.
#[global] Instance result_bind : MBind result := fun _ _ f r =>
  match r with
  | Ok a => f a
  | Raise e => Raise e
  end.

Definition is_ok {A} (r : result A) : bool :=
  match r with Ok _ => true | Raise _ => false end.

(** [[f(x) for x in l]] where [f] may raise. *)
Fixpoint comprehension {A B} (f : A -> result B) (l : list A) : result (list B) :=
  match l with
  | [] => Ok []
  | a :: l' => b ← f a; bs ← comprehension f l'; mret (b :: bs)
  end.

(** Python's [range(n)]: empty when [n <= 0]. *)
Definition range (n : Z) : list Z := Z.of_nat <$> seq 0 (Z.to_nat n).

(** A lookup in a dictionary of named values. *)
Definition getitem {V} (d : gmap string V) (k : string) : result V :=
  match d !! k with
  | Some v => Ok v
  | None => Raise KeyError
  end.

(** ** resnet.py *)

(** *** Layers of [torch.nn], by their hyperparameters *)

(** [nn.Conv2d(in_channels, out_channels, kernel_size, stride, padding)],
    square kernel, one group, no dilation, with bias. *)
Record Conv2d : Type := mkConv2d {
  in_channels : Z;
  out_channels : Z;
  kernel_size : Z;
  stride : Z;
  padding : Z
}.

Record AvgPool2d : Type := mkAvgPool2d { pool_size : Z }.

Record Linear : Type := mkLinear { in_features : Z; out_features : Z }.

Definition nn_Conv2d (i o k s p : Z) : result Conv2d := mret (mkConv2d i o k s p).
Definition nn_AvgPool2d (k : Z) : result AvgPool2d := mret (mkAvgPool2d k).
Definition nn_Linear (i o : Z) : result Linear := mret (mkLinear i o).

(** The learnable tensors a layer registers, with their shapes. *)
Definition Conv2d_parameters (c : Conv2d) : list (string * list Z) :=
  [ ("weight"%string,
      [out_channels c; in_channels c; kernel_size c; kernel_size c]);
    ("bias"%string, [out_channels c]) ].

Definition Linear_parameters (l : Linear) : list (string * list Z) :=
  [ ("weight"%string, [out_features l; in_features l]);
    ("bias"%string, [out_features l]) ].

(** *** The tensor operations the forward pass relies on

    [T] is what a tensor is for the reading at hand: its shape alone, or a
    value computed from a dictionary of parameters.  A layer is applied
    under the qualified name it has in the model, as in the keys of
    [state_dict()]; the name is the layer's identity, so that two layers
    with equal hyperparameters still own distinct weights. *)
Class Backend (T : Type) : Type := {
  conv2d : string -> Conv2d -> T -> result T;
  relu : T -> T;
  iadd : T -> T -> result T;
  avg_pool2d : AvgPool2d -> T -> result T;
  view : list Z -> T -> result T;
  linear : string -> Linear -> T -> result T
}.

(** The qualified name of attribute [attr] of the module named [self]. *)
Definition qualify (self attr : string) : string :=
  if String.eqb self "" then attr else self +:+ "." +:+ attr.

(** *** ResidualBlock *)

Record ResidualBlock : Type := mkResidualBlock {
  subsample : bool;
  conv1 : Conv2d;
  conv2 : Conv2d;
  projection_shortcut : Conv2d
}.

Definition ResidualBlock_init (num_filters : Z) (subsample : bool)
  : result ResidualBlock :=
  conv1 ← (if subsample
           then nn_Conv2d (num_filters / 2) num_filters 3 2 1
           else nn_Conv2d num_filters num_filters 3 1 1);
  conv2 ← nn_Conv2d num_filters num_filters 3 1 1;
  projection_shortcut ← nn_Conv2d (num_filters / 2) num_filters 1 2 0;
  mret (mkResidualBlock subsample conv1 conv2 projection_shortcut).

Definition ResidualBlock_forward {T} {B : Backend T}
    (self : string) (b : ResidualBlock) (x : T) : result T :=
  out ← conv2d (qualify self "conv1") (conv1 b) x;
  let out := relu out in
  out ← conv2d (qualify self "conv2") (conv2 b) out;
  x ← (if subsample b
       then conv2d (qualify self "projection_shortcut") (projection_shortcut b) x
       else mret x);
  out ← iadd out x;
  let out := relu out in
  mret out.

Definition with_prefix (self : string) (ps : list (string * list Z))
  : list (string * list Z) :=
  (fun p => (qualify self (fst p), snd p)) <$> ps.

Definition ResidualBlock_parameters (b : ResidualBlock) : list (string * list Z) :=
  with_prefix "conv1" (Conv2d_parameters (conv1 b))
  ++ with_prefix "conv2" (Conv2d_parameters (conv2 b))
  ++ with_prefix "projection_shortcut" (Conv2d_parameters (projection_shortcut b)).

(** *** nn.Sequential *)

Fixpoint Sequential_forward_from {T} {B : Backend T}
    (self : string) (i : nat) (blocks : list ResidualBlock) (x : T) : result T :=
  match blocks with
  | [] => mret x
  | b :: rest =>
      x ← ResidualBlock_forward (qualify self (pretty i)) b x;
      Sequential_forward_from self (S i) rest x
  end.

Definition Sequential_forward {T} {B : Backend T}
    (self : string) (blocks : list ResidualBlock) (x : T) : result T :=
  Sequential_forward_from self 0 blocks x.

Fixpoint Sequential_parameters_from (i : nat) (blocks : list ResidualBlock)
  : list (string * list Z) :=
  match blocks with
  | [] => []
  | b :: rest =>
      with_prefix (pretty i) (ResidualBlock_parameters b)
      ++ Sequential_parameters_from (S i) rest
  end.

(** *** ResNet *)

Record ResNet : Type := mkResNet {
  net_conv1 : Conv2d;
  stack1 : list ResidualBlock;
  stack2 : list ResidualBlock;
  stack3 : list ResidualBlock;
  global_avg_pool : AvgPool2d;
  fully_connected : Linear
}.

Definition ResNet_init (n : Z) : result ResNet :=
  conv1 ← nn_Conv2d 3 16 3 1 1;
  stack1 ← comprehension (fun _ => ResidualBlock_init 16 false) (range n);
  stack2 ← (first ← ResidualBlock_init 32 true;
            others ← comprehension (fun _ => ResidualBlock_init 32 false)
                                   (range (n - 1));
            mret (first :: others));
  stack3 ← (first ← ResidualBlock_init 64 true;
            others ← comprehension (fun _ => ResidualBlock_init 64 false)
                                   (range (n - 1));
            mret (first :: others));
  global_avg_pool ← nn_AvgPool2d 8;
  fully_connected ← nn_Linear 64 10;
  mret (mkResNet conv1 stack1 stack2 stack3 global_avg_pool fully_connected).

Definition ResNet_forward {T} {B : Backend T} (net : ResNet) (x : T) : result T :=
  out ← conv2d "conv1" (net_conv1 net) x;
  let out := relu out in
  out ← Sequential_forward "stack1" (stack1 net) out;
  out ← Sequential_forward "stack2" (stack2 net) out;
  out ← Sequential_forward "stack3" (stack3 net) out;
  out ← avg_pool2d (global_avg_pool net) out;
  out ← view [-1; 64] out;
  out ← linear "fully_connected" (fully_connected net) out;
  mret out.

(** [named_parameters()]: registration order of [__init__], depth first. *)
Definition ResNet_parameters (net : ResNet) : list (string * list Z) :=
  with_prefix "conv1" (Conv2d_parameters (net_conv1 net))
  ++ with_prefix "stack1" (Sequential_parameters_from 0 (stack1 net))
  ++ with_prefix "stack2" (Sequential_parameters_from 0 (stack2 net))
  ++ with_prefix "stack3" (Sequential_parameters_from 0 (stack3 net))
  ++ with_prefix "fully_connected" (Linear_parameters (fully_connected net)).

(** The residual blocks among the modules of the network. *)
Definition ResNet_blocks (net : ResNet) : list ResidualBlock :=
  stack1 net ++ stack2 net ++ stack3 net.

(** *** Shapes

    The numerical library's shape rules for the layers used above.  A shape
    is the list of a tensor's dimensions. *)

(** Output length of a sliding window along one axis. *)
Definition window_out (len k s p : Z) : Z := (len + 2 * p - k) / s + 1.

Definition conv2d_shape (c : Conv2d) (x : list Z) : result (list Z) :=
  let chw ch h w :=
    if decide (ch = in_channels c
               /\ kernel_size c <= h + 2 * padding c
               /\ kernel_size c <= w + 2 * padding c)
    then Ok [out_channels c;
             window_out h (kernel_size c) (stride c) (padding c);
             window_out w (kernel_size c) (stride c) (padding c)]
    else Raise RuntimeError in
  match x with
  | [ch; h; w] => chw ch h w
  | [n; ch; h; w] => s ← chw ch h w; mret (n :: s)
  | _ => Raise RuntimeError
  end.

(** [out += x]: [x] is broadcast to the shape of [out], which is kept.
    Both lists are given innermost dimension first. *)
Fixpoint broadcastable_rev (x out : list Z) : bool :=
  match x, out with
  | [], _ => true
  | _ :: _, [] => false
  | dx :: x', dout :: out' =>
      (bool_decide (dx = dout) || bool_decide (dx = 1))
      && broadcastable_rev x' out'
  end.

Definition iadd_shape (out x : list Z) : result (list Z) :=
  if broadcastable_rev (rev x) (rev out) then Ok out else Raise RuntimeError.

(** [nn.AvgPool2d(k)]: stride [k], no padding, floor mode. *)
Definition avg_pool2d_shape (p : AvgPool2d) (x : list Z) : result (list Z) :=
  let k := pool_size p in
  let hw h w :=
    let h' := window_out h k k 0 in
    let w' := window_out w k k 0 in
    if decide (1 <= h' /\ 1 <= w') then Ok [h'; w'] else Raise RuntimeError in
  match x with
  | [ch; h; w] => s ← hw h w; mret (ch :: s)
  | [n; ch; h; w] => s ← hw h w; mret (n :: ch :: s)
  | _ => Raise RuntimeError
  end.

Definition numel (x : list Z) : Z := foldr Z.mul 1 x.

(** [view(-1, c)]: the row count is inferred from the number of elements. *)
Definition view_shape (target x : list Z) : result (list Z) :=
  match target with
  | [-1; c] =>
      if decide (c <> 0 /\ numel x mod c = 0)
      then Ok [numel x / c; c] else Raise RuntimeError
  | _ => if decide (numel target = numel x) then Ok target else Raise RuntimeError
  end.

Definition linear_shape (l : Linear) (x : list Z) : result (list Z) :=
  match rev x with
  | d :: lead =>
      if decide (d = in_features l)
      then Ok (rev (out_features l :: lead)) else Raise RuntimeError
  | [] => Raise RuntimeError
  end.

#[global] Instance shape_backend : Backend (list Z) := {|
  conv2d := fun _ c x => conv2d_shape c x;
  relu := fun x => x;
  iadd := iadd_shape;
  avg_pool2d := avg_pool2d_shape;
  view := view_shape;
  linear := fun _ l x => linear_shape l x
|}.

(** The shape of [ResNet(n)(x)] for an input of shape [x]. *)
Definition ResNet_output_shape (n : Z) (x : list Z) : result (list Z) :=
  net ← ResNet_init n;
  ResNet_forward net x.

(** ** train.py *)

(** *** What the numerical library computes on values

    The operations are those the two files call; their results on values
    are left to the library.  A tensor that came out of a forward pass
    stands for itself together with the graph that produced it, which is
    what [autograd] differentiates. *)
Class Torch (tensor : Type) : Type := {
  F_conv2d : tensor -> tensor -> Z -> Z -> tensor -> result tensor;
  F_relu : tensor -> tensor;
  T_iadd : tensor -> tensor -> result tensor;
  F_avg_pool2d : Z -> tensor -> result tensor;
  T_view : list Z -> tensor -> result tensor;
  F_linear : tensor -> tensor -> tensor -> result tensor;
  (* nn.CrossEntropyLoss()(outputs, labels) *)
  cross_entropy : tensor -> tensor -> result tensor;
  (* labels.size(0) *)
  size0 : tensor -> Z;
  (* (torch.max(outputs.data, 1)[1] == labels).sum().item() *)
  count_correct : tensor -> tensor -> Z;
  of_float : Q -> tensor;
  T_add : tensor -> tensor -> tensor;
  T_mul_int : tensor -> Z -> tensor;
  T_div_int : tensor -> Z -> tensor;
  (* the gradient of a loss with respect to each named parameter *)
  autograd : gmap string tensor -> tensor -> gmap string tensor;
  (* one SGD update of a parameter: lr, weight decay, momentum, the
     parameter, its gradient, its momentum buffer if any *)
  sgd_update : Q -> Q -> Q -> tensor -> tensor -> option tensor -> tensor * tensor;
  (* the values a freshly built layer draws for a parameter of this name
     and shape from the seeded generator *)
  init_parameter : string -> list Z -> tensor
}.

(** A layer reads its weight and bias in the dictionary of parameters under
    its own qualified name. *)
Definition value_backend {tensor} `{Torch tensor} (params : gmap string tensor)
  : Backend tensor := {|
  conv2d := fun name c x =>
    w ← getitem params (qualify name "weight");
    b ← getitem params (qualify name "bias");
    F_conv2d w b (stride c) (padding c) x;
  relu := F_relu;
  iadd := T_iadd;
  avg_pool2d := fun p x => F_avg_pool2d (pool_size p) x;
  view := T_view;
  linear := fun name l x =>
    w ← getitem params (qualify name "weight");
    b ← getitem params (qualify name "bias");
    F_linear w b x
|}.

(** *** Configuration and data pipeline *)

Module config.
Record t : Type := mk {
  n : Z;
  batch_size : Z;
  learning_rate : Q;
  epochs : Z;
  weight_decay : Q;
  momentum : Q
}.
End config.

Definition hyperparameters : config.t :=
  config.mk 3 128 (1 # 10) 164 (1 # 10000) (9 # 10).

#[warnings="-register-all"]
Inductive transform : Type :=
| ToTensor
| Normalize (mean std : list Q)
| RandomCrop (size pad : Z)
| Compose (ts : list transform).

(** The transform built for the train split in [make]. *)
Definition train_transform : transform :=
  Compose [ ToTensor;
            Normalize [1 # 2; 1 # 2; 1 # 2] [1 # 2; 1 # 2; 1 # 2];
            RandomCrop 32 4 ].

(** The transform [make] passes for the test split. *)
Definition test_transform : transform := ToTensor.




Section Driver.
Context {tensor : Type} `{Torch tensor}.

(** A loader is consumed as the batches of one pass and the size of the
    data set behind it. *)
Record DataLoader : Type := mkDataLoader {
  batches : list (tensor * tensor);
  dataset_len : Z
}.

(** [get_dataloader(train_transform, test_transform, batch_size)] of the
    module [dataloader]. *)
Variable get_dataloader : transform -> transform -> Z -> DataLoader * DataLoader.

(** *** The objects of a run *)

Record Model : Type := mkModel {
  net : ResNet;
  state_dict : gmap string tensor;
  training : bool
}.

(** [torch.optim.SGD] with one parameter group.  The parameters it
    updates are the model's own: they are read and written in
    [state_dict] of the model, of which there is one copy. *)
Record SGD : Type := mkSGD {
  lr : Q;
  sgd_weight_decay : Q;
  sgd_momentum : Q;
  momentum_buffer : gmap string tensor
}.

Record MultiStepLR : Type := mkMultiStepLR {
  milestones : list Z;
  gamma : Q;
  last_epoch : Z
}.

Record Metrics : Type := mkMetrics {
  epoch : Z;
  train_error : Q;
  train_loss : tensor;
  test_error : Q;
  test_loss : tensor
}.

Record World : Type := mkWorld {
  model : Model;
  grad : gmap string tensor;
  grad_enabled : bool;
  optimizer : SGD;
  scheduler : MultiStepLR;
  wandb_log : list Metrics
}.

(** Statements run on the world; an exception leaves the world as it
    was when it was raised. *)
Definition M (A : Type) : Type := World -> result A * World.

#[local] Instance M_ret : MRet M := fun _ a w => (Ok a, w).
#[local] Instance M_bind : MBind M := fun _ _ f m w =>
  match m w with
  | (Ok a, w') => f a w'
  | (Raise e, w') => (Raise e, w')
  end.

Definition lift {A} (r : result A) : M A := fun w => (r, w).
Definition get : M World := fun w => (Ok w, w).
Definition modify (f : World -> World) : M unit := fun w => (Ok tt, f w).

Fixpoint for_each {A} (l : list A) (body : A -> M unit) : M unit :=
  match l with
  | [] => mret tt
  | a :: l' => body a;; for_each l' body
  end.

Definition set_model (f : Model -> Model) (w : World) : World :=
  mkWorld (f (model w)) (grad w) (grad_enabled w) (optimizer w) (scheduler w)
          (wandb_log w).
Definition set_grad (g : gmap string tensor) (w : World) : World :=
  mkWorld (model w) g (grad_enabled w) (optimizer w) (scheduler w) (wandb_log w).
Definition set_grad_enabled (b : bool) (w : World) : World :=
  mkWorld (model w) (grad w) b (optimizer w) (scheduler w) (wandb_log w).
Definition set_optimizer (o : SGD) (w : World) : World :=
  mkWorld (model w) (grad w) (grad_enabled w) o (scheduler w) (wandb_log w).
Definition set_scheduler (s : MultiStepLR) (w : World) : World :=
  mkWorld (model w) (grad w) (grad_enabled w) (optimizer w) s (wandb_log w).

(** [model.train()] and [model.eval()] *)
Definition set_training (b : bool) (m : Model) : Model :=
  mkModel (net m) (state_dict m) b.
Definition model_train : M unit := modify (set_model (set_training true)).
Definition model_eval : M unit := modify (set_model (set_training false)).

(** [model(images)] *)
Definition model_call (images : tensor) : M tensor :=
  w ← get;
  lift (ResNet_forward (B := value_backend (state_dict (model w)))
                       (net (model w)) images).

(** [with torch.inference_mode(): body] *)
Definition inference_mode {A} (body : M A) : M A := fun w =>
  let (r, w') := body (set_grad_enabled false w) in
  (r, set_grad_enabled (grad_enabled w) w').

(** [optimizer.zero_grad()] *)
Definition optimizer_zero_grad : M unit := modify (set_grad ∅).

(** [loss.backward()]: gradients accumulate into [.grad]. *)
Definition backward (loss : tensor) : M unit :=
  modify (fun w =>
    set_grad (union_with (fun g g' => Some (T_add g g'))
                         (grad w) (autograd (state_dict (model w)) loss)) w).

(** [optimizer.step()]: every parameter that has a gradient is updated
    with the current learning rate. *)
Definition optimizer_step : M unit :=
  modify (fun w =>
    let o := optimizer w in
    let upd := map_imap (fun k g =>
        p ← state_dict (model w) !! k;
        Some (sgd_update (lr o) (sgd_weight_decay o) (sgd_momentum o)
                         p g (momentum_buffer o !! k))) (grad w) in
    set_optimizer
      (mkSGD (lr o) (sgd_weight_decay o) (sgd_momentum o)
             ((snd <$> upd) ∪ momentum_buffer o))
      (set_model (fun m => mkModel (net m) ((fst <$> upd) ∪ state_dict m)
                                   (training m)) w)).

(** [MultiStepLR.get_lr] and [scheduler.step()] *)
Definition MultiStepLR_get_lr (s : MultiStepLR) (current : Q) : Q :=
  let k := count_occ Z.eq_dec (milestones s) (last_epoch s) in
  if (k =? 0)%nat then current
  else (current * Qpower (gamma s) (Z.of_nat k))%Q.

Definition scheduler_step : M unit :=
  modify (fun w =>
    let s := scheduler w in
    let s' := mkMultiStepLR (milestones s) (gamma s) (last_epoch s + 1) in
    let o := optimizer w in
    set_scheduler s'
      (set_optimizer (mkSGD (MultiStepLR_get_lr s' (lr o)) (sgd_weight_decay o)
                            (sgd_momentum o) (momentum_buffer o)) w)).

Definition wandb_log_record (r : Metrics) : M unit :=
  modify (fun w => mkWorld (model w) (grad w) (grad_enabled w) (optimizer w)
                           (scheduler w) (wandb_log w ++ [r])).

(** *** make *)

Definition make (cfg : config.t) : result (World * DataLoader * DataLoader) :=
  let '(train_dataloader, test_dataloader) :=
    get_dataloader train_transform test_transform (config.batch_size cfg) in
  net ← ResNet_init (config.n cfg);
  let model :=
    mkModel net
            (list_to_map ((fun p => (fst p, init_parameter (fst p) (snd p)))
                          <$> ResNet_parameters net))
            true in
  let optimizer :=
    mkSGD (config.learning_rate cfg) (config.weight_decay cfg)
          (config.momentum cfg) ∅ in
  (* MultiStepLR(optimizer, milestones=[82, 123], gamma=0.1): the
     constructor starts from last_epoch = -1 and takes one step *)
  let w := mkWorld model ∅ true optimizer
                   (mkMultiStepLR [82; 123] (1 # 10) (-1)) [] in
  let w := snd (scheduler_step w) in
  mret (w, train_dataloader, test_dataloader).

(** *** evaluate *)

Definition evaluate_batch (acc : tensor * Z) (batch : tensor * tensor)
  : M (tensor * Z) :=
  let '(loss_sum, correct) := acc in
  let '(images, labels) := batch in
  outputs ← model_call images;
  loss ← lift (cross_entropy outputs labels);
  let loss_sum := T_add loss_sum (T_mul_int loss (size0 labels)) in
  let correct := correct + count_correct outputs labels in
  mret (loss_sum, correct).

Fixpoint evaluate_loop (acc : tensor * Z) (bs : list (tensor * tensor))
  : M (tensor * Z) :=
  match bs with
  | [] => mret acc
  | b :: bs' => acc ← evaluate_batch acc b; evaluate_loop acc bs'
  end.

Definition evaluate (loader : DataLoader) : M (tensor * Q) :=
  model_eval;;
  acc ← inference_mode (evaluate_loop (of_float 0, 0) (batches loader));
  let '(loss_sum, correct) := acc in
  if dataset_len loader =? 0 then lift (Raise ZeroDivisionError)
  else mret (T_div_int loss_sum (dataset_len loader),
             (inject_Z correct / inject_Z (dataset_len loader))%Q).

(** *** train *)

Definition train_batch (batch : tensor * tensor) : M unit :=
  let '(images, labels) := batch in
  outputs ← model_call images;
  train_loss ← lift (cross_entropy outputs labels);
  optimizer_zero_grad;;
  backward train_loss;;
  optimizer_step.

(** The batches of one epoch. *)
Definition train_one_epoch (train_loader : DataLoader) : M unit :=
  model_train;;
  for_each (batches train_loader) train_batch.

Definition train_epoch (train_loader test_loader : DataLoader) (epoch : Z)
  : M unit :=
  train_one_epoch train_loader;;
  r ← evaluate train_loader;
  let '(train_loss, train_accuracy) := r in
  r ← evaluate test_loader;
  let '(test_loss, test_accuracy) := r in
  wandb_log_record
    (mkMetrics epoch (1 - train_accuracy)%Q train_loss
               (1 - test_accuracy)%Q test_loss);;
  scheduler_step.

(** [wandb.watch(model, loss_func, log="all", log_freq=10)] registers the
    model with the tracker; the objects of the run are not touched. *)
Definition wandb_watch : M unit := mret tt.

Definition train (train_loader test_loader : DataLoader) (cfg : config.t)
  : M unit :=
  wandb_watch;;
  for_each (range (config.epochs cfg)) (train_epoch train_loader test_loader).

(** The run up to the start of epoch [e]. *)
Definition train_until (train_loader test_loader : DataLoader) (e : Z)
  : M unit :=
  for_each (range e) (train_epoch train_loader test_loader).

(** *** model_pipeline *)

(** What a run leaves outside of its own objects: the files written by
    [torch.save], and on the tracker the files uploaded by [wandb.save],
    the artifacts logged and the metrics records received. *)
Record Artifact : Type := mkArtifact {
  artifact_name : string;
  artifact_type : string;
  artifact_description : string;
  artifact_metadata : config.t;
  artifact_files : list string
}.

Record Outside : Type := mkOutside {
  files : gmap string (gmap string tensor);
  uploaded : list string;
  artifacts : list Artifact;
  tracked : list Metrics
}.

Definition torch_save (obj : gmap string tensor) (path : string) (out : Outside)
  : Outside :=
  mkOutside (<[path := obj]> (files out)) (uploaded out) (artifacts out)
            (tracked out).

Definition wandb_save (path : string) (out : Outside) : Outside :=
  mkOutside (files out) (uploaded out ++ [path]) (artifacts out) (tracked out).

Definition log_artifact (a : Artifact) (out : Outside) : Outside :=
  mkOutside (files out) (uploaded out) (artifacts out ++ [a]) (tracked out).

(** The records logged during the run reach the tracker as they are
    logged, also when the run is cut short by an exception. *)
Definition track (w : World) (out : Outside) : Outside :=
  mkOutside (files out) (uploaded out) (artifacts out)
            (tracked out ++ wandb_log w).

Definition model_pipeline (project : string) (cfg : config.t) (out : Outside)
  : result unit * Outside :=
  match make cfg with
  | Raise e => (Raise e, out)
  | Ok (w0, train_loader, test_loader) =>
      match train train_loader test_loader cfg w0 with
      | (Raise e, w) => (Raise e, track w out)
      | (Ok _, w) =>
          let out := track w out in
          let model_artifact :=
            mkArtifact "resnet" "model"
              "Residual Neural Network model trained on CIFAR-10 dataset."
              cfg [] in
          let out := torch_save (state_dict (model w)) "model.pth" out in
          let out := wandb_save "model.pth" out in
          let out := log_artifact model_artifact out in
          (Ok tt, out)
      end
  end.

End Driver.

Arguments DataLoader tensor : clear implicits.
Arguments Model tensor : clear implicits.
Arguments SGD tensor : clear implicits.
Arguments Metrics tensor : clear implicits.
Arguments World tensor : clear implicits.
Arguments M tensor A : clear implicits.
Arguments Outside tensor : clear implicits.

(** ** Vocabulary of the statements *)

(** The direct children of the network, as [named_children()] lists them. *)
Inductive Child : Type :=
| ChildConv2d (c : Conv2d)
| ChildSequential (blocks : list ResidualBlock)
| ChildAvgPool2d (p : AvgPool2d)
| ChildLinear (l : Linear).

Definition ResNet_children (net : ResNet) : list (string * Child) :=
  [ ("conv1"%string, ChildConv2d (net_conv1 net));
    ("stack1"%string, ChildSequential (stack1 net));
    ("stack2"%string, ChildSequential (stack2 net));
    ("stack3"%string, ChildSequential (stack3 net));
    ("global_avg_pool"%string, ChildAvgPool2d (global_avg_pool net));
    ("fully_connected"%string, ChildLinear (fully_connected net)) ].

Definition is_conv (c : string * Child) : bool :=
  match snd c with ChildConv2d _ => true | _ => false end.
Definition is_linear (c : string * Child) : bool :=
  match snd c with ChildLinear _ => true | _ => false end.

(** The three stages with the names they are registered under. *)
Definition ResNet_stacks (net : ResNet) : list (string * list ResidualBlock) :=
  [ ("stack1"%string, stack1 net);
    ("stack2"%string, stack2 net);
    ("stack3"%string, stack3 net) ].


(** The numerical library read on shapes alone: a tensor is its shape, a
    parameter is initialised to its shape, gradients and updates keep
    shapes.  It runs the driver on examples. *)
#[global] Instance shape_torch : Torch (list Z) := {|
  F_conv2d := fun w b s p x =>
    match w with
    | [o; i; k; _] => conv2d_shape (mkConv2d i o k s p) x
    | _ => Raise RuntimeError
    end;
  F_relu := fun x => x;
  T_iadd := iadd_shape;
  F_avg_pool2d := fun k x => avg_pool2d_shape (mkAvgPool2d k) x;
  T_view := view_shape;
  F_linear := fun w b x =>
    match w with
    | [o; i] => linear_shape (mkLinear i o) x
    | _ => Raise RuntimeError
    end;
  cross_entropy := fun outputs labels =>
    match outputs, labels with
    | [n; _], [m] => if decide (n = m) then Ok [] else Raise ValueError
    | _, _ => Raise ValueError
    end;
  size0 := fun x => hd 0 x;
  count_correct := fun _ _ => 0;
  of_float := fun _ => [];
  T_add := fun x _ => x;
  T_mul_int := fun x _ => x;
  T_div_int := fun x _ => x;
  autograd := fun params _ => params;
  sgd_update := fun _ _ _ p _ _ => (p, p);
  init_parameter := fun _ shape => shape
|}.

(** A data source with one batch of four 32 by 32 images per split. *)
Definition one_batch_loaders (_ _ : transform) (_ : Z)
  : DataLoader (list Z) * DataLoader (list Z) :=
  (mkDataLoader [([4; 3; 32; 32], [4])] 4, mkDataLoader [([4; 3; 32; 32], [4])] 4).

(** The block [ResidualBlock(num_filters, subsample)] builds. *)
Definition block_of (num_filters : Z) (subsample : bool) : ResidualBlock :=
  mkResidualBlock subsample
    (if subsample then mkConv2d (num_filters / 2) num_filters 3 2 1
     else mkConv2d num_filters num_filters 3 1 1)
    (mkConv2d num_filters num_filters 3 1 1)
    (mkConv2d (num_filters / 2) num_filters 1 2 0).

(** Output width of a block, read off its second convolution. *)
Definition block_width (b : ResidualBlock) : Z := out_channels (conv2 b).



(** Number of scalars in a list of named parameters. *)
Definition parameter_count (ps : list (string * list Z)) : Z :=
  foldr (fun p acc => numel p.2 + acc) 0 ps.

(** Number of scalars held by the projections of the blocks that are built
    without the downsample flag. *)
Definition idle_projection_count (blocks : list ResidualBlock) : Z :=
  foldr (fun b acc =>
           (if subsample b then 0
            else parameter_count (Conv2d_parameters (projection_shortcut b)))
           + acc) 0 blocks.

(** The names of the two tensors of the layer [layer] of a module [self]. *)
Definition layer_keys (self layer : string) : list string :=
  [qualify (qualify self layer) "weight"; qualify (qualify self layer) "bias"].

(** Whether a name has a dot in it. *)
Fixpoint has_dot (s : string) : bool :=
  match s with
  | EmptyString => false
  | String c s' => Ascii.eqb c "."%char || has_dot s'
  end.

(** ** The network assembly *)

Lemma length_range (n : Z) : length (range n) = Z.to_nat n.
Proof. unfold range. now rewrite length_fmap, length_seq. Qed.

Lemma comprehension_const {A B} (f : A -> result B) (b : B) (l : list A) :
  (forall a, f a = Ok b) -> comprehension f l = Ok (replicate (length l) b).
Proof.
  intros Hf. induction l as [|a l IH]; simpl; [reflexivity|].
  rewrite Hf. simpl. rewrite IH. reflexivity.
Qed.

Lemma ResidualBlock_init_ok (num_filters : Z) (s : bool) :
  ResidualBlock_init num_filters s = Ok (block_of num_filters s).
Proof. destruct s; reflexivity. Qed.

Lemma ResNet_init_ok (n : Z) :
  ResNet_init n =
  Ok (mkResNet (mkConv2d 3 16 3 1 1)
        (replicate (Z.to_nat n) (block_of 16 false))
        (block_of 32 true :: replicate (Z.to_nat (n - 1)) (block_of 32 false))
        (block_of 64 true :: replicate (Z.to_nat (n - 1)) (block_of 64 false))
        (mkAvgPool2d 8) (mkLinear 64 10)).
Proof.
  unfold ResNet_init.
  rewrite !(comprehension_const _ _ _ (fun _ => ResidualBlock_init_ok _ _)).
  rewrite !ResidualBlock_init_ok, !length_range. reflexivity.
Qed.

(** C1, as stated, fails: the constructor has no check on the depth factor.
    With [n = 0] the comprehension over [range(0)] is empty and
    [ResNet(0)] is built, so it is not the case that every [n < 1] is
    rejected. *)
Lemma ResNet_init_rejects_nonpositive_fails :
  ~ (forall n : Z, n < 1 -> exists e : exn, ResNet_init n = Raise e).
Proof.
  intros Hreject. destruct (Hreject 0 ltac:(lia)) as [e He].
  rewrite ResNet_init_ok in He. discriminate He.
Qed.

(** C1, amended: for every depth factor [n < 1] the constructor raises
    nothing and builds a network whose first stage is empty and whose second
    and third stages hold their downsampling block alone, between the stem
    convolution and the pooling and linear head. *)
Theorem ResNet_init_nonpositive_builds (n : Z) :
  n < 1 ->
  ResNet_init n =
  Ok (mkResNet (mkConv2d 3 16 3 1 1)
        []
        [mkResidualBlock true (mkConv2d 16 32 3 2 1) (mkConv2d 32 32 3 1 1)
                         (mkConv2d 16 32 1 2 0)]
        [mkResidualBlock true (mkConv2d 32 64 3 2 1) (mkConv2d 64 64 3 1 1)
                         (mkConv2d 32 64 1 2 0)]
        (mkAvgPool2d 8) (mkLinear 64 10)).
Proof.
  intros Hn. rewrite ResNet_init_ok.
  replace (Z.to_nat n) with 0%nat by lia.
  replace (Z.to_nat (n - 1)) with 0%nat by lia.
  reflexivity.
Qed.

Lemma ResNet_init_nonpositive_builds_witness :
  -2 < 1 /\ is_ok (ResNet_init (-2)) = true.
Proof.
  split; [lia|].
  rewrite (ResNet_init_nonpositive_builds (-2)); [reflexivity | lia].
Defined.

Lemma Forall_replicate_width (k : nat) (c : Z) :
  Forall (fun b => block_width b = c) (replicate k (block_of c false)).
Proof. apply Forall_replicate. reflexivity. Qed.

(** C2: for every depth factor [n >= 1] the network that is built has [n]
    residual blocks in each of its three stages, of output width 16, 32 and
    64, hence [3 n] residual blocks in all, and among its direct children
    exactly one convolution (the stem, 3 to 16 channels) and exactly one
    linear layer (the head, 64 features to 10 scores). *)
Theorem ResNet_init_block_count (n : Z) :
  1 <= n ->
  exists net : ResNet,
    ResNet_init n = Ok net
    /\ Z.of_nat (length (ResNet_blocks net)) = 3 * n
    /\ Z.of_nat (length (stack1 net)) = n
    /\ Z.of_nat (length (stack2 net)) = n
    /\ Z.of_nat (length (stack3 net)) = n
    /\ Forall (fun b => block_width b = 16) (stack1 net)
    /\ Forall (fun b => block_width b = 32) (stack2 net)
    /\ Forall (fun b => block_width b = 64) (stack3 net)
    /\ List.filter is_conv (ResNet_children net)
       = [("conv1"%string, ChildConv2d (mkConv2d 3 16 3 1 1))]
    /\ List.filter is_linear (ResNet_children net)
       = [("fully_connected"%string, ChildLinear (mkLinear 64 10))].
Proof.
  intros Hn. eexists. split; [apply ResNet_init_ok|].
  unfold ResNet_blocks. cbn [stack1 stack2 stack3].
  rewrite !length_app. cbn [length]. rewrite !length_replicate.
  repeat split; try lia.
  - apply Forall_replicate_width.
  - constructor; [reflexivity | apply Forall_replicate_width].
  - constructor; [reflexivity | apply Forall_replicate_width].
Qed.

Lemma ResNet_init_block_count_witness :
  exists net : ResNet,
    ResNet_init 3 = Ok net /\ Z.of_nat (length (ResNet_blocks net)) = 9.
Proof.
  destruct (ResNet_init_block_count 3 ltac:(lia)) as (net & Hnet & Hlen & _).
  exists net. split; [exact Hnet | exact Hlen].
Defined.

(** ** Shapes through the blocks *)

Lemma conv2d_shape_batch (c : Conv2d) (n h w : Z) :
  kernel_size c <= h + 2 * padding c ->
  kernel_size c <= w + 2 * padding c ->
  conv2d_shape c [n; in_channels c; h; w]
  = Ok [n; out_channels c;
        window_out h (kernel_size c) (stride c) (padding c);
        window_out w (kernel_size c) (stride c) (padding c)].
Proof.
  intros Hh Hw. unfold conv2d_shape.
  rewrite decide_True by (repeat split; assumption). reflexivity.
Qed.

Lemma window_out_same (len : Z) : window_out len 3 1 1 = len.
Proof. unfold window_out. rewrite Z.div_1_r. lia. Qed.

Lemma window_out_halving (len : Z) :
  window_out len 3 2 1 = (len - 1) / 2 + 1 /\ window_out len 1 2 0 = (len - 1) / 2 + 1.
Proof. unfold window_out. split; do 2 f_equal; lia. Qed.

Lemma broadcastable_rev_refl (l : list Z) : broadcastable_rev l l = true.
Proof.
  induction l as [|d l IH]; simpl; [reflexivity|].
  rewrite bool_decide_eq_true_2 by reflexivity. exact IH.
Qed.

Lemma iadd_shape_same (s : list Z) : iadd_shape s s = Ok s.
Proof. unfold iadd_shape. now rewrite broadcastable_rev_refl. Qed.

(** A block without downsampling keeps the shape of its input. *)
Lemma plain_block_shape (self : string) (c n h w : Z) :
  1 <= h -> 1 <= w ->
  ResidualBlock_forward self (block_of c false) [n; c; h; w] = Ok [n; c; h; w].
Proof.
  intros Hh Hw. unfold ResidualBlock_forward, block_of.
  cbn [conv1 conv2 subsample projection_shortcut conv2d relu iadd shape_backend].
  rewrite (conv2d_shape_batch (mkConv2d c c 3 1 1)) by (cbn; lia).
  cbn [mbind result_bind in_channels out_channels kernel_size stride padding].
  rewrite !window_out_same.
  rewrite (conv2d_shape_batch (mkConv2d c c 3 1 1)) by (cbn; lia).
  cbn [mbind result_bind mret result_ret in_channels out_channels kernel_size
       stride padding].
  rewrite !window_out_same. now rewrite iadd_shape_same.
Qed.

(** A downsampling block: both paths produce the same shape. *)
Lemma down_block_shape (self : string) (c n h w : Z) :
  1 <= h -> 1 <= w ->
  ResidualBlock_forward self (block_of c true) [n; c / 2; h; w]
  = Ok [n; c; (h - 1) / 2 + 1; (w - 1) / 2 + 1].
Proof.
  intros Hh Hw. unfold ResidualBlock_forward, block_of.
  cbn [conv1 conv2 subsample projection_shortcut conv2d relu iadd shape_backend].
  rewrite (conv2d_shape_batch (mkConv2d (c / 2) c 3 2 1)) by (cbn; lia).
  cbn [mbind result_bind in_channels out_channels kernel_size stride padding].
  destruct (window_out_halving h) as [-> Hh1], (window_out_halving w) as [-> Hw1].
  assert (0 <= (h - 1) / 2) by (apply Z.div_pos; lia).
  assert (0 <= (w - 1) / 2) by (apply Z.div_pos; lia).
  rewrite (conv2d_shape_batch (mkConv2d c c 3 1 1)) by (cbn; lia).
  cbn [mbind result_bind in_channels out_channels kernel_size stride padding].
  rewrite !window_out_same.
  rewrite (conv2d_shape_batch (mkConv2d (c / 2) c 1 2 0)) by (cbn; lia).
  cbn [mbind result_bind mret result_ret in_channels out_channels kernel_size
       stride padding].
  rewrite Hh1, Hw1. now rewrite iadd_shape_same.
Qed.

Lemma plain_stack_shape (self : string) (k i : nat) (c n h w : Z) :
  1 <= h -> 1 <= w ->
  Sequential_forward_from self i (replicate k (block_of c false)) [n; c; h; w]
  = Ok [n; c; h; w].
Proof.
  intros Hh Hw. revert i. induction k as [|k IH]; intros i; simpl; [reflexivity|].
  rewrite plain_block_shape by assumption. simpl. apply IH.
Qed.

Lemma down_stack_shape (self : string) (k : nat) (c n h w : Z) :
  1 <= h -> 1 <= w ->
  Sequential_forward self (block_of c true :: replicate k (block_of c false))
                     [n; c / 2; h; w]
  = Ok [n; c; (h - 1) / 2 + 1; (w - 1) / 2 + 1].
Proof.
  intros Hh Hw. unfold Sequential_forward. simpl.
  rewrite down_block_shape by assumption. simpl.
  apply plain_stack_shape; (assert (0 <= (h - 1) / 2) by (apply Z.div_pos; lia));
    (assert (0 <= (w - 1) / 2) by (apply Z.div_pos; lia)); lia.
Qed.

(** C3, as stated, fails on inputs of odd height or width: a downsampling
    block of width 32 maps a 5 by 5 input of 16 channels to 3 by 3, which
    is not half of 5, neither exactly nor rounded down. *)
Lemma down_block_odd_input_not_half :
  (b ← ResidualBlock_init 32 true;
   ResidualBlock_forward "stack2.0" b [1; 16; 5; 5]) = Ok [1; 32; 3; 3]
  /\ 2 * 3 <> 5 /\ 3 <> 5 / 2.
Proof. split; [vm_compute; reflexivity | split; [lia | discriminate]]. Qed.

(** C3, amended: a block of output width [w] built with the downsample flag
    has a first convolution of stride 2 from [w/2] to [w] channels and takes
    its shortcut through the learned 1x1 convolution of stride 2 (whatever
    the tensors are); on a batch of [w/2] channels and height and width at
    least 1 its output has [w] channels and height and width
    [floor((h - 1) / 2) + 1], the input's rounded up to the next half, which
    is exactly half the input's when that is even. *)
Theorem down_block_forward (w n h wd : Z) (self : string) :
  2 <= w -> 1 <= n -> 1 <= h -> 1 <= wd ->
  exists b : ResidualBlock,
    ResidualBlock_init w true = Ok b
    /\ conv1 b = mkConv2d (w / 2) w 3 2 1
    /\ projection_shortcut b = mkConv2d (w / 2) w 1 2 0
    /\ (forall (T : Type) (B : Backend T) (x : T),
          ResidualBlock_forward self b x =
          (out ← conv2d (qualify self "conv1") (conv1 b) x;
           out ← conv2d (qualify self "conv2") (conv2 b) (relu out);
           shortcut ← conv2d (qualify self "projection_shortcut")
                             (projection_shortcut b) x;
           out ← iadd out shortcut;
           mret (relu out)))
    /\ ResidualBlock_forward self b [n; w / 2; h; wd]
       = Ok [n; w; (h - 1) / 2 + 1; (wd - 1) / 2 + 1]
    /\ (h mod 2 = 0 -> (h - 1) / 2 + 1 = h / 2)
    /\ (wd mod 2 = 0 -> (wd - 1) / 2 + 1 = wd / 2).
Proof.
  intros Hw Hn Hh Hwd. exists (block_of w true).
  split; [apply ResidualBlock_init_ok|].
  split; [reflexivity|]. split; [reflexivity|].
  split; [intros T B x; reflexivity|].
  split; [apply down_block_shape; assumption|].
  split; intros Heven; Z.div_mod_to_equations; lia.
Qed.

Lemma down_block_forward_witness :
  exists b : ResidualBlock,
    ResidualBlock_init 32 true = Ok b
    /\ ResidualBlock_forward "stack2.0" b [4; 16; 32; 32] = Ok [4; 32; 16; 16].
Proof.
  destruct (down_block_forward 32 4 32 32 "stack2.0"
              ltac:(lia) ltac:(lia) ltac:(lia) ltac:(lia))
    as (b & Hb & _ & _ & _ & Hshape & _).
  exists b. split; [exact Hb | exact Hshape].
Defined.

(** C7: the network built with [n = 1] accepts a batch of shape
    (4, 3, 32, 32) and returns scores of shape (4, 10). *)
Theorem ResNet_forward_cifar_batch :
  exists net : ResNet,
    ResNet_init 1 = Ok net /\ ResNet_forward net [4; 3; 32; 32] = Ok [4; 10].
Proof.
  eexists. split; [apply ResNet_init_ok|]. vm_compute. reflexivity.
Qed.

(** ** The head *)

(** Shape of the feature map that reaches the pooling layer. *)
Lemma ResNet_features_shape (d n h w : Z) :
  1 <= h -> 1 <= w ->
  ResNet_output_shape d [n; 3; h; w] =
  (out ← avg_pool2d_shape (mkAvgPool2d 8)
           [n; 64; ((h - 1) / 2 + 1 - 1) / 2 + 1; ((w - 1) / 2 + 1 - 1) / 2 + 1];
   out ← view_shape [-1; 64] out;
   linear_shape (mkLinear 64 10) out).
Proof.
  intros Hh Hw. unfold ResNet_output_shape. rewrite ResNet_init_ok.
  cbn [mbind result_bind]. unfold ResNet_forward.
  cbn [net_conv1 stack1 stack2 stack3 global_avg_pool fully_connected
       conv2d relu avg_pool2d view linear shape_backend].
  rewrite (conv2d_shape_batch (mkConv2d 3 16 3 1 1)) by (cbn; lia).
  cbn [mbind result_bind in_channels out_channels kernel_size stride padding].
  rewrite !window_out_same.
  assert (0 <= (h - 1) / 2) by (apply Z.div_pos; lia).
  assert (0 <= (w - 1) / 2) by (apply Z.div_pos; lia).
  pose proof (down_stack_shape "stack2" (Z.to_nat (d - 1)) 32 n h w Hh Hw) as E2.
  pose proof (down_stack_shape "stack3" (Z.to_nat (d - 1)) 64 n
                ((h - 1) / 2 + 1) ((w - 1) / 2 + 1) ltac:(lia) ltac:(lia)) as E3.
  change (32 / 2) with 16 in E2. change (64 / 2) with 32 in E3.
  unfold Sequential_forward in *.
  rewrite plain_stack_shape by assumption. cbn [mbind result_bind].
  rewrite E2. cbn [mbind result_bind]. rewrite E3. cbn [mbind result_bind].
  destruct (avg_pool2d_shape _ _); cbn [mbind result_bind]; [|reflexivity].
  destruct (view_shape _ _); cbn [mbind result_bind]; [|reflexivity].
  destruct (linear_shape _ _); reflexivity.
Qed.

Lemma view_rows (n h w : Z) :
  view_shape [-1; 64] [n; 64; h; w] = Ok [n * h * w; 64].
Proof.
  unfold view_shape.
  assert (Hnumel : numel [n; 64; h; w] = n * h * w * 64) by (cbn; ring).
  rewrite Hnumel, decide_True.
  - now rewrite Z.div_mul by discriminate.
  - split; [discriminate | apply Z.mod_mul; discriminate].
Qed.

(** C10, as stated, fails: a 40 by 40 input also gives one row of scores
    per sample, so 32 by 32 is not the only size that does. *)
Lemma ResNet_forward_40x40_one_row_per_sample :
  ResNet_output_shape 1 [4; 3; 40; 40] = Ok [4; 10] /\ 40 <> 32.
Proof. split; [vm_compute; reflexivity | discriminate]. Qed.

(** C10, amended: the head pools with a fixed 8 by 8 window and reshapes to
    rows of 64 features.  For a batch of [n >= 1] images of height [h] and
    width [w]: if [h] or [w] is below 29 the pooling fails; otherwise the
    forward pass returns [n * floor((h+3)/32) * floor((w+3)/32)] rows of 10
    scores, which is one row per sample exactly when both [h] and [w] are
    at most 60 (32 by 32 included). *)
Theorem ResNet_head_rows (d n h w : Z) :
  1 <= n -> 1 <= h -> 1 <= w ->
  (exists net : ResNet,
     ResNet_init d = Ok net /\ global_avg_pool net = mkAvgPool2d 8)
  /\ (h < 29 \/ w < 29 -> ResNet_output_shape d [n; 3; h; w] = Raise RuntimeError)
  /\ (29 <= h -> 29 <= w ->
      ResNet_output_shape d [n; 3; h; w]
      = Ok [n * ((h + 3) / 32) * ((w + 3) / 32); 10]
      /\ (n * ((h + 3) / 32) * ((w + 3) / 32) = n <-> h <= 60 /\ w <= 60)).
Proof.
  intros Hn Hh Hw.
  split; [eexists; split; [apply ResNet_init_ok | reflexivity]|].
  rewrite ResNet_features_shape by assumption.
  unfold avg_pool2d_shape, window_out. cbn [pool_size].
  set (h3 := ((h - 1) / 2 + 1 - 1) / 2 + 1).
  set (w3 := ((w - 1) / 2 + 1 - 1) / 2 + 1).
  assert (Hh3 : (h3 + 2 * 0 - 8) / 8 + 1 = (h + 3) / 32)
    by (subst h3; Z.div_mod_to_equations; lia).
  assert (Hw3 : (w3 + 2 * 0 - 8) / 8 + 1 = (w + 3) / 32)
    by (subst w3; Z.div_mod_to_equations; lia).
  rewrite Hh3, Hw3. split.
  - intros Hsmall. rewrite decide_False; [reflexivity|].
    intros [? ?]. Z.div_mod_to_equations. lia.
  - intros Hh29 Hw29.
    assert (1 <= (h + 3) / 32) by (Z.div_mod_to_equations; lia).
    assert (1 <= (w + 3) / 32) by (Z.div_mod_to_equations; lia).
    rewrite decide_True by (split; assumption).
    cbn [mbind result_bind mret result_ret]. rewrite view_rows.
    cbn [mbind result_bind]. split; [reflexivity|].
    split.
    + intros Hrows.
      assert (Hpq : (h + 3) / 32 * ((w + 3) / 32) = 1)
        by (apply (Z.mul_reg_l _ _ n);
            [lia | rewrite Z.mul_assoc, Z.mul_1_r; exact Hrows]).
      apply Z.eq_mul_1_nonneg in Hpq; [|lia]. destruct Hpq as [? ?].
      Z.div_mod_to_equations. lia.
    + intros [? ?].
      assert ((h + 3) / 32 = 1) as -> by (Z.div_mod_to_equations; lia).
      assert ((w + 3) / 32 = 1) as -> by (Z.div_mod_to_equations; lia).
      lia.
Qed.

Lemma ResNet_head_rows_witness :
  ResNet_output_shape 3 [128; 3; 48; 48] = Ok [128 * ((48 + 3) / 32) * ((48 + 3) / 32); 10].
Proof.
  destruct (ResNet_head_rows 3 128 48 48 ltac:(lia) ltac:(lia) ltac:(lia))
    as (_ & _ & Hbig).
  destruct (Hbig ltac:(lia) ltac:(lia)) as [Hshape _]. exact Hshape.
Defined.

(** ** Parameters *)

Lemma string_app_assoc (a b c : string) : (a +:+ b) +:+ c = a +:+ (b +:+ c).
Proof.
  induction a as [|ch a IH]; [reflexivity|].
  change (String ch ((a +:+ b) +:+ c) = String ch (a +:+ (b +:+ c))).
  now rewrite IH.
Qed.

Lemma qualify_nonempty (self attr : string) : self <> ""%string ->
  qualify self attr = self +:+ "." +:+ attr.
Proof. intros Hne. unfold qualify. destruct self; [congruence | reflexivity]. Qed.

Lemma qualify_nested (self a b : string) : a <> ""%string ->
  qualify (qualify self a) b = qualify self (a +:+ "." +:+ b).
Proof.
  intros Ha. destruct self as [|ch self].
  - unfold qualify at 2 3. cbn. now apply qualify_nonempty.
  - rewrite (qualify_nonempty (String ch self) a) by discriminate.
    rewrite (qualify_nonempty (String ch self)) by discriminate.
    rewrite qualify_nonempty by discriminate.
    now rewrite !string_app_assoc.
Qed.

#[global] Instance qualify_inj (self : string) : Inj (=) (=) (qualify self).
Proof.
  intros a b Hab. unfold qualify in Hab.
  destruct (String.eqb self ""); [exact Hab|].
  now apply String.app_inj, String.app_inj in Hab.
Qed.


Lemma elem_of_with_prefix (self : string) (p : string * list Z) ps :
  p ∈ ps -> (qualify self p.1, p.2) ∈ with_prefix self ps.
Proof.
  intros Hp. unfold with_prefix.
  apply (list_elem_of_fmap_2 (fun q => (qualify self q.1, q.2))). exact Hp.
Qed.


Lemma Sequential_parameters_lookup (blocks : list ResidualBlock) :
  forall (start i : nat) (b : ResidualBlock),
    blocks !! i = Some b ->
    with_prefix (pretty (start + i)%nat) (ResidualBlock_parameters b)
    ⊆ Sequential_parameters_from start blocks.
Proof.
  induction blocks as [|b0 blocks IH]; intros start i b Hi; [discriminate|].
  destruct i as [|i]; cbn in Hi; cbn [Sequential_parameters_from].
  - injection Hi as ->. rewrite Nat.add_0_r. intros p Hp.
    apply elem_of_app. now left.
  - intros p Hp. apply elem_of_app. right.
    apply (IH (S start) i b Hi). now rewrite Nat.add_succ_comm.
Qed.


Lemma stack_parameters_in_ResNet (net : ResNet) (name : string) blocks :
  (name, blocks) ∈ ResNet_stacks net ->
  with_prefix name (Sequential_parameters_from 0 blocks) ⊆ ResNet_parameters net.
Proof.
  unfold ResNet_stacks, ResNet_parameters. intros Hin p Hp.
  rewrite !elem_of_cons in Hin.
  destruct Hin as [Heq|[Heq|[Heq|Hnil]]];
    [injection Heq as -> -> ..| now apply elem_of_nil in Hnil];
    rewrite !elem_of_app; auto.
Qed.


Section Values.
Context {tensor : Type} `{!Torch tensor}.


(** The dictionary of parameters that [make] hands to the optimizer, and
    that the checkpoint serializes, has an entry for every named parameter
    of the network. *)
Lemma make_state_dict
    (get_dataloader : transform -> transform -> Z
                      -> DataLoader tensor * DataLoader tensor)
    (cfg : config.t) (w0 : World tensor) (tl tel : DataLoader tensor) :
  make get_dataloader cfg = Ok (w0, tl, tel) ->
  state_dict (model w0)
  = list_to_map ((fun p => (p.1, init_parameter p.1 p.2))
                 <$> ResNet_parameters (net (model w0))).
Proof.
  unfold make. destruct (get_dataloader _ _ _) as [tl' tel'].
  rewrite ResNet_init_ok. cbn [mbind result_bind mret result_ret].
  intros [= <- <- <-]. reflexivity.
Qed.

Lemma make_state_dict_keys
    (get_dataloader : transform -> transform -> Z
                      -> DataLoader tensor * DataLoader tensor)
    (cfg : config.t) (w0 : World tensor) (tl tel : DataLoader tensor)
    (p : string * list Z) :
  make get_dataloader cfg = Ok (w0, tl, tel) ->
  p ∈ ResNet_parameters (net (model w0)) ->
  is_Some (state_dict (model w0) !! p.1).
Proof.
  intros Hmake Hp. rewrite (make_state_dict _ _ _ _ _ Hmake).
  match goal with
  | |- is_Some (?d !! _) => destruct (d !! p.1) as [v|] eqn:Hlookup
  end; [now exists v|].
  apply not_elem_of_list_to_map in Hlookup. exfalso. apply Hlookup.
  apply list_elem_of_fmap. eexists (p.1, _). split; [reflexivity|].
  apply list_elem_of_fmap. exists p. split; [reflexivity | exact Hp].
Qed.

End Values.



(** ** The driver *)

Ltac run_M :=
  unfold mbind, M_bind, mret, M_ret, lift, get, modify in *.

Section DriverFacts.
Context {tensor : Type} `{!Torch tensor}.

Implicit Types (w : World tensor) (loader : DataLoader tensor).

Lemma set_grad_enabled_restore w (b : bool) :
  set_grad_enabled (grad_enabled w) (set_grad_enabled b w) = w.
Proof. destruct w; reflexivity. Qed.

Lemma model_call_world (images : tensor) w :
  snd (model_call images w) = w.
Proof. unfold model_call. run_M. reflexivity. Qed.

Lemma evaluate_batch_world (acc : tensor * Z) (b : tensor * tensor) w :
  snd (evaluate_batch acc b w) = w.
Proof.
  destruct acc as [loss_sum correct], b as [images labels].
  unfold evaluate_batch, model_call. run_M.
  destruct (ResNet_forward _ images) as [outputs|]; [|reflexivity].
  destruct (cross_entropy outputs labels); reflexivity.
Qed.

Lemma evaluate_loop_world (bs : list (tensor * tensor)) :
  forall (acc : tensor * Z) w, snd (evaluate_loop acc bs w) = w.
Proof.
  induction bs as [|b bs IH]; intros acc w; [reflexivity|].
  cbn [evaluate_loop]. unfold mbind, M_bind.
  pose proof (evaluate_batch_world acc b w) as Hb.
  destruct (evaluate_batch acc b w) as [[acc'|e] w']; cbn in Hb; subst w'.
  - apply IH.
  - reflexivity.
Qed.

Lemma inference_mode_world {A} (body : M tensor A) w :
  (forall w0, snd (body w0) = w0) -> snd (inference_mode body w) = w.
Proof.
  intros Hbody. unfold inference_mode.
  pose proof (Hbody (set_grad_enabled false w)) as Hw.
  destruct (body (set_grad_enabled false w)) as [r w']; cbn in Hw |- *.
  subst w'. apply set_grad_enabled_restore.
Qed.

(** All that [evaluate] leaves behind is the evaluation mode of the model. *)
Lemma evaluate_world loader w :
  snd (evaluate loader w) = set_model (set_training false) w.
Proof.
  unfold evaluate, model_eval. unfold mbind, M_bind, modify at 1.
  set (w1 := set_model (set_training false) w).
  pose proof (inference_mode_world
                (evaluate_loop (of_float 0, 0) (batches loader)) w1
                (evaluate_loop_world _ _)) as Hw.
  destruct (inference_mode _ w1) as [[[loss_sum correct]|e] w']; cbn in Hw;
    subst w'; [|reflexivity].
  destruct (dataset_len loader =? 0); reflexivity.
Qed.

End DriverFacts.

(** C5: whatever the model state and the split, and whether the call
    returns or raises, [evaluate] leaves the dictionary of parameters as it
    was, and with it the gradients, the optimizer and the scheduler: the
    world after the call is the world before it with the model switched to
    evaluation mode. *)
Theorem evaluate_leaves_parameters (tensor : Type) (L : Torch tensor)
    (loader : DataLoader tensor) (w : World tensor) :
  let w' := snd (evaluate loader w) in
  state_dict (model w') = state_dict (model w)
  /\ net (model w') = net (model w)
  /\ grad w' = grad w
  /\ grad_enabled w' = grad_enabled w
  /\ optimizer w' = optimizer w
  /\ scheduler w' = scheduler w
  /\ training (model w') = false.
Proof. cbv zeta. rewrite evaluate_world. repeat split. Qed.

(** ** The learning-rate schedule *)

Lemma range_succ (k : nat) :
  range (Z.of_nat (S k)) = range (Z.of_nat k) ++ [Z.of_nat k].
Proof.
  unfold range. rewrite !Nat2Z.id, seq_S, fmap_app. reflexivity.
Qed.

Lemma range_split (e n : Z) :
  0 <= e <= n -> range n = range e ++ drop (Z.to_nat e) (range n).
Proof.
  intros He. rewrite <- (take_drop (Z.to_nat e) (range n)) at 1. f_equal.
  unfold range. rewrite <- fmap_take. f_equal.
  replace (Z.to_nat n) with (Z.to_nat e + (Z.to_nat n - Z.to_nat e))%nat by lia.
  rewrite seq_app, take_app_length'; [reflexivity | now rewrite length_seq].
Qed.

Section ScheduleFacts.
Context {tensor : Type} `{!Torch tensor}.
Implicit Types (w : World tensor) (train_loader test_loader : DataLoader tensor).

Lemma for_each_app {A} (l1 l2 : list A) (body : A -> M tensor unit) w :
  for_each (l1 ++ l2) body w =
  match for_each l1 body w with
  | (Ok _, w') => for_each l2 body w'
  | (Raise e, w') => (Raise e, w')
  end.
Proof.
  revert w. induction l1 as [|a l1 IH]; intros w; [reflexivity|].
  cbn [app for_each]. unfold mbind, M_bind.
  destruct (body a w) as [[[]|e] w']; [apply IH | reflexivity].
Qed.

Lemma train_batch_keeps_schedule (b : tensor * tensor) w :
  lr (optimizer (snd (train_batch b w))) = lr (optimizer w)
  /\ scheduler (snd (train_batch b w)) = scheduler w.
Proof.
  destruct b as [images labels].
  unfold train_batch, model_call, optimizer_zero_grad, backward, optimizer_step.
  run_M.
  destruct (ResNet_forward _ images) as [outputs|]; [|split; reflexivity].
  destruct (cross_entropy outputs labels); split; reflexivity.
Qed.

Lemma train_batches_keep_schedule (bs : list (tensor * tensor)) w :
  lr (optimizer (snd (for_each bs train_batch w))) = lr (optimizer w)
  /\ scheduler (snd (for_each bs train_batch w)) = scheduler w.
Proof.
  revert w. induction bs as [|b bs IH]; intros w; [split; reflexivity|].
  cbn [for_each]. unfold mbind, M_bind.
  destruct (train_batch_keeps_schedule b w) as [Hlr Hs].
  destruct (train_batch b w) as [[[]|e] w']; cbn [snd] in Hlr, Hs |- *.
  - destruct (IH w') as [Hlr' Hs']. split; congruence.
  - split; assumption.
Qed.

Lemma train_one_epoch_keeps_schedule train_loader w :
  lr (optimizer (snd (train_one_epoch train_loader w))) = lr (optimizer w)
  /\ scheduler (snd (train_one_epoch train_loader w)) = scheduler w.
Proof.
  unfold train_one_epoch, model_train. unfold mbind, M_bind, modify at 1.
  apply (train_batches_keep_schedule (batches train_loader)
           (set_model (set_training true) w)).
Qed.





End ScheduleFacts.



(** ** The data pipeline *)


(** ** Further properties of the blocks and of the network *)





(** X3: whatever the depth factor and the batch size, a batch of 32 by 32
    images with 3 channels yields one row of 10 scores per image. *)
Theorem ResNet_forward_any_depth (d n : Z) :
  0 <= n ->
  ResNet_output_shape d [n; 3; 32; 32] = Ok [n; 10].
Proof.
  intros Hn. rewrite ResNet_features_shape by lia.
  change (avg_pool2d_shape (mkAvgPool2d 8)
            [n; 64; ((32 - 1) / 2 + 1 - 1) / 2 + 1; ((32 - 1) / 2 + 1 - 1) / 2 + 1])
    with (Ok (A := list Z) [n; 64; 1; 1]).
  cbn [mbind result_bind]. rewrite view_rows. cbn [mbind result_bind].
  replace (n * 1 * 1) with n by lia. reflexivity.
Qed.

Lemma ResNet_forward_any_depth_witness :
  ResNet_output_shape 9 [128; 3; 32; 32] = Ok [128; 10].
Proof. apply (ResNet_forward_any_depth 9 128). lia. Defined.

Lemma stem_rejects (d n ch h w : Z) :
  ~ (ch = 3 /\ 1 <= h /\ 1 <= w) ->
  ResNet_output_shape d [n; ch; h; w] = Raise RuntimeError.
Proof.
  intros Hbad. unfold ResNet_output_shape. rewrite ResNet_init_ok.
  cbn [mbind result_bind]. unfold ResNet_forward.
  cbn [net_conv1 conv2d shape_backend]. unfold conv2d_shape.
  cbn [in_channels kernel_size padding].
  match goal with
  | |- context [decide (ch = ?a /\ ?rest)] =>
      destruct (decide (ch = a /\ rest)) as [(? & ? & ?)|_]; [|reflexivity]
  end.
  exfalso. apply Hbad. lia.
Qed.

(** X4: the network rejects a batch whose images do not have 3 channels:
    the stem convolution raises, whatever the depth factor. *)
Theorem ResNet_rejects_channel_mismatch (d n ch h w : Z) :
  ch <> 3 ->
  ResNet_output_shape d [n; ch; h; w] = Raise RuntimeError.
Proof. intros Hch. apply stem_rejects. intros [? _]. contradiction. Qed.

Lemma ResNet_rejects_channel_mismatch_witness :
  ResNet_output_shape 3 [128; 1; 32; 32] = Raise RuntimeError.
Proof. apply ResNet_rejects_channel_mismatch. discriminate. Defined.

(** X5: on a batch of images the outcome of the forward pass, shape or
    exception, does not depend on the depth factor. *)
Theorem ResNet_output_shape_depth_independent (d d' n ch h w : Z) :
  ResNet_output_shape d [n; ch; h; w] = ResNet_output_shape d' [n; ch; h; w].
Proof.
  destruct (decide (ch = 3 /\ 1 <= h /\ 1 <= w)) as [(-> & Hh & Hw)|Hbad].
  - now rewrite !ResNet_features_shape by assumption.
  - now rewrite !stem_rejects by assumption.
Qed.

(** ** Counting parameters *)

Lemma parameter_count_app (ps qs : list (string * list Z)) :
  parameter_count (ps ++ qs) = parameter_count ps + parameter_count qs.
Proof.
  induction ps as [|p ps IH]; cbn [app parameter_count foldr]; [reflexivity|].
  fold (parameter_count (ps ++ qs)). fold (parameter_count ps). lia.
Qed.

Lemma parameter_count_with_prefix (self : string) (ps : list (string * list Z)) :
  parameter_count (with_prefix self ps) = parameter_count ps.
Proof.
  induction ps as [|p ps IH]; [reflexivity|].
  unfold with_prefix in *. cbn [fmap list_fmap parameter_count foldr snd].
  fold (parameter_count ((fun q => (qualify self q.1, q.2)) <$> ps)).
  fold (parameter_count ps). now rewrite IH.
Qed.

Lemma length_with_prefix (self : string) (ps : list (string * list Z)) :
  length (with_prefix self ps) = length ps.
Proof. unfold with_prefix. apply length_fmap. Qed.

Lemma Sequential_parameters_replicate (b : ResidualBlock) (k : nat) :
  forall i : nat,
    parameter_count (Sequential_parameters_from i (replicate k b))
    = Z.of_nat k * parameter_count (ResidualBlock_parameters b)
    /\ length (Sequential_parameters_from i (replicate k b)) = (6 * k)%nat.
Proof.
  induction k as [|k IH]; intros i; [split; reflexivity|].
  cbn [replicate Sequential_parameters_from].
  rewrite parameter_count_app, parameter_count_with_prefix.
  rewrite length_app, length_with_prefix.
  destruct (IH (S i)) as [-> ->]. split; [rewrite Nat2Z.inj_succ; ring|].
  change (length (ResidualBlock_parameters b)) with 6%nat. lia.
Qed.

Lemma idle_projection_count_app (xs ys : list ResidualBlock) :
  idle_projection_count (xs ++ ys)
  = idle_projection_count xs + idle_projection_count ys.
Proof.
  induction xs as [|b xs IH]; cbn [app idle_projection_count foldr]; [reflexivity|].
  fold (idle_projection_count (xs ++ ys)). fold (idle_projection_count xs). lia.
Qed.

Lemma idle_projection_count_replicate (b : ResidualBlock) (k : nat) :
  idle_projection_count (replicate k b)
  = Z.of_nat k * idle_projection_count [b].
Proof.
  induction k as [|k IH]; [reflexivity|].
  change (replicate (S k) b) with ([b] ++ replicate k b).
  rewrite idle_projection_count_app, IH, Nat2Z.inj_succ. ring.
Qed.

(** X6: for a depth factor [n >= 1] the network registers [18 n + 4]
    parameter tensors holding [99792 n - 21942] scalars in all, of which
    [2800 n - 2656] belong to the projections of the blocks built without
    the downsample flag. *)
Theorem ResNet_parameter_count (n : Z) :
  1 <= n ->
  exists net : ResNet,
    ResNet_init n = Ok net
    /\ Z.of_nat (length (ResNet_parameters net)) = 18 * n + 4
    /\ parameter_count (ResNet_parameters net) = 99792 * n - 21942
    /\ idle_projection_count (ResNet_blocks net) = 2800 * n - 2656.
Proof.
  intros Hn. eexists. split; [apply ResNet_init_ok|].
  unfold ResNet_parameters, ResNet_blocks.
  cbn [net_conv1 stack1 stack2 stack3 fully_connected Sequential_parameters_from].
  rewrite !length_app, !parameter_count_app, !length_with_prefix,
    !parameter_count_with_prefix, !length_app, !parameter_count_app,
    !length_with_prefix, !parameter_count_with_prefix.
  destruct (Sequential_parameters_replicate (block_of 16 false) (Z.to_nat n) 0)
    as [-> ->].
  destruct (Sequential_parameters_replicate (block_of 32 false) (Z.to_nat (n - 1)) 1)
    as [-> ->].
  destruct (Sequential_parameters_replicate (block_of 64 false) (Z.to_nat (n - 1)) 1)
    as [-> ->].
  change (block_of 32 true :: replicate (Z.to_nat (n - 1)) (block_of 32 false))
    with ([block_of 32 true] ++ replicate (Z.to_nat (n - 1)) (block_of 32 false)).
  change (block_of 64 true :: replicate (Z.to_nat (n - 1)) (block_of 64 false))
    with ([block_of 64 true] ++ replicate (Z.to_nat (n - 1)) (block_of 64 false)).
  rewrite !idle_projection_count_app, !idle_projection_count_replicate.
  change (parameter_count (ResidualBlock_parameters (block_of 16 false))) with 4784.
  change (parameter_count (ResidualBlock_parameters (block_of 32 false))) with 19040.
  change (parameter_count (ResidualBlock_parameters (block_of 64 false))) with 75968.
  change (parameter_count (ResidualBlock_parameters (block_of 32 true))) with 14432.
  change (parameter_count (ResidualBlock_parameters (block_of 64 true))) with 57536.
  change (parameter_count (Conv2d_parameters (mkConv2d 3 16 3 1 1))) with 448.
  change (parameter_count (Linear_parameters (mkLinear 64 10))) with 650.
  change (idle_projection_count [block_of 16 false]) with 144.
  change (idle_projection_count [block_of 32 false]) with 544.
  change (idle_projection_count [block_of 64 false]) with 2112.
  change (idle_projection_count [block_of 32 true]) with 0.
  change (idle_projection_count [block_of 64 true]) with 0.
  change (length (ResidualBlock_parameters (block_of 32 true))) with 6%nat.
  change (length (ResidualBlock_parameters (block_of 64 true))) with 6%nat.
  change (length (Conv2d_parameters (mkConv2d 3 16 3 1 1))) with 2%nat.
  change (length (Linear_parameters (mkLinear 64 10))) with 2%nat.
  repeat split; lia.
Qed.

Lemma ResNet_parameter_count_witness :
  exists net : ResNet,
    ResNet_init 3 = Ok net
    /\ parameter_count (ResNet_parameters net) = 277434.
Proof.
  destruct (ResNet_parameter_count 3 ltac:(lia)) as (net & Hnet & _ & Hcount & _).
  exists net. split; [exact Hnet | exact Hcount].
Defined.

(** ** Names of parameters *)

Lemma has_dot_pretty_N_go (x : N) :
  forall s : string, has_dot s = false -> has_dot (pretty_N_go x s) = false.
Proof.
  induction (N.lt_wf_0 x) as [x _ IH]. intros s Hs.
  destruct (decide (x = 0)%N) as [->|Hx]; [now rewrite pretty_N_go_0|].
  rewrite pretty_N_go_step by lia. apply IH; [apply N.div_lt; lia|].
  cbn [has_dot]. rewrite Hs, orb_false_r.
  unfold pretty_N_char. repeat case_match; reflexivity.
Qed.

Lemma pretty_N_go_nonempty (x : N) :
  forall s : string, s <> ""%string -> pretty_N_go x s <> ""%string.
Proof.
  induction (N.lt_wf_0 x) as [x _ IH]. intros s Hs.
  destruct (decide (x = 0)%N) as [->|Hx]; [now rewrite pretty_N_go_0|].
  rewrite pretty_N_go_step by lia. apply IH; [apply N.div_lt; lia | discriminate].
Qed.

Lemma pretty_nat_dotless (i : nat) : has_dot (pretty i) = false.
Proof.
  unfold pretty, pretty_nat, pretty, pretty_N.
  case_decide; [reflexivity | now apply has_dot_pretty_N_go].
Qed.

Lemma pretty_nat_nonempty (i : nat) : pretty i <> ""%string.
Proof.
  unfold pretty, pretty_nat, pretty, pretty_N.
  case_decide; [discriminate|].
  rewrite pretty_N_go_step by lia. apply pretty_N_go_nonempty. discriminate.
Qed.

Lemma app_dot_inj (a b s s' : string) :
  has_dot a = false -> has_dot b = false ->
  a +:+ "." +:+ s = b +:+ "." +:+ s' -> a = b /\ s = s'.
Proof.
  revert b. induction a as [|c a IH]; intros [|c' b] Ha Hb Heq.
  - change (String "." s = String "." s') in Heq. now injection Heq as ->.
  - change (String "." s = String c' (b +:+ "." +:+ s')) in Heq.
    injection Heq as <- _. discriminate Hb.
  - change (String c (a +:+ "." +:+ s) = String "." s') in Heq.
    injection Heq as -> _. discriminate Ha.
  - change (String c (a +:+ "." +:+ s) = String c' (b +:+ "." +:+ s')) in Heq.
    injection Heq as -> Heq. cbn [has_dot] in Ha, Hb.
    apply orb_false_iff in Ha as [_ Ha]. apply orb_false_iff in Hb as [_ Hb].
    destruct (IH b Ha Hb Heq) as [-> ->]. split; reflexivity.
Qed.

(** Two qualified names are equal only if module and attribute are. *)
Lemma qualify_eq_inv (p q s s' : string) :
  p <> ""%string -> q <> ""%string -> has_dot p = false -> has_dot q = false ->
  qualify p s = qualify q s' -> p = q /\ s = s'.
Proof.
  intros Hp Hq Hdp Hdq. rewrite !qualify_nonempty by assumption.
  now apply app_dot_inj.
Qed.

Lemma names_with_prefix (p : string) (ps : list (string * list Z)) :
  (with_prefix p ps).*1 = qualify p <$> ps.*1.
Proof.
  unfold with_prefix. rewrite <- !list_fmap_compose.
  apply list_fmap_ext. intros _ [name shape] _. reflexivity.
Qed.

Lemma NoDup_with_prefix (p : string) (ps : list (string * list Z)) :
  NoDup ps.*1 -> NoDup (with_prefix p ps).*1.
Proof. rewrite names_with_prefix. apply (NoDup_fmap_2 (qualify p)). Qed.

Lemma with_prefix_disjoint (p q : string) (ps qs : list (string * list Z)) :
  p <> ""%string -> q <> ""%string -> has_dot p = false -> has_dot q = false ->
  p <> q ->
  forall x : string, x ∈ (with_prefix p ps).*1 -> x ∉ (with_prefix q qs).*1.
Proof.
  intros Hp Hq Hdp Hdq Hpq x. rewrite !names_with_prefix.
  intros (s & -> & _)%list_elem_of_fmap (s' & Heq & _)%list_elem_of_fmap.
  now destruct (qualify_eq_inv p q s s' Hp Hq Hdp Hdq Heq).
Qed.

Lemma ResidualBlock_parameter_names (b : ResidualBlock) :
  (ResidualBlock_parameters b).*1
  = [ "conv1.weight"; "conv1.bias"; "conv2.weight"; "conv2.bias";
      "projection_shortcut.weight"; "projection_shortcut.bias" ]%string.
Proof. reflexivity. Qed.

Lemma NoDup_ResidualBlock_parameters (b : ResidualBlock) :
  NoDup (ResidualBlock_parameters b).*1.
Proof.
  rewrite ResidualBlock_parameter_names.
  apply (bool_decide_unpack _). vm_compute. exact I.
Qed.

(** The names in a stack from index [i] on start with an index [k >= i]. *)
Lemma Sequential_parameter_names (blocks : list ResidualBlock) :
  forall (i : nat) (x : string),
    x ∈ (Sequential_parameters_from i blocks).*1 ->
    exists (k : nat) (s : string), (i <= k)%nat /\ x = qualify (pretty k) s.
Proof.
  induction blocks as [|b blocks IH]; intros i x Hx.
  - now apply elem_of_nil in Hx.
  - cbn [Sequential_parameters_from] in Hx. rewrite fmap_app, elem_of_app in Hx.
    destruct Hx as [Hx|Hx].
    + rewrite names_with_prefix in Hx.
      apply list_elem_of_fmap in Hx as (s & -> & _). exists i, s. split; [lia|reflexivity].
    + destruct (IH (S i) x Hx) as (k & s & Hk & ->). exists k, s. split; [lia|reflexivity].
Qed.

Lemma NoDup_Sequential_parameters (blocks : list ResidualBlock) :
  forall i : nat, NoDup (Sequential_parameters_from i blocks).*1.
Proof.
  induction blocks as [|b blocks IH]; intros i; [constructor|].
  cbn [Sequential_parameters_from]. rewrite fmap_app. apply NoDup_app.
  split; [apply NoDup_with_prefix, NoDup_ResidualBlock_parameters|].
  split; [|apply IH].
  intros x Hx Hx'. rewrite names_with_prefix in Hx.
  apply list_elem_of_fmap in Hx as (s & -> & _).
  apply Sequential_parameter_names in Hx' as (k & s' & Hk & Heq).
  apply qualify_eq_inv in Heq as [Heq _];
    auto using pretty_nat_nonempty, pretty_nat_dotless.
  apply (inj pretty) in Heq. lia.
Qed.

Lemma NoDup_Conv2d_parameters (c : Conv2d) : NoDup (Conv2d_parameters c).*1.
Proof. apply (bool_decide_unpack _). vm_compute. exact I. Qed.

Lemma NoDup_Linear_parameters (l : Linear) : NoDup (Linear_parameters l).*1.
Proof. apply (bool_decide_unpack _). vm_compute. exact I. Qed.

Ltac other_prefix :=
  match goal with
  | H : _ ∈ (with_prefix ?p _).*1, H' : _ ∈ (with_prefix ?q _).*1 |- False =>
      apply (with_prefix_disjoint p q _ _ ltac:(discriminate) ltac:(discriminate)
               eq_refl eq_refl ltac:(discriminate) _ H H')
  end.

(** No two parameters of a network share a name. *)
Lemma NoDup_ResNet_parameters (net : ResNet) : NoDup (ResNet_parameters net).*1.
Proof.
  unfold ResNet_parameters. rewrite !fmap_app.
  repeat (apply NoDup_app; split; [|split]);
    try (apply NoDup_with_prefix;
         first [ apply NoDup_Conv2d_parameters
               | apply NoDup_Sequential_parameters
               | apply NoDup_Linear_parameters ]);
    intros x Hx Hx'; rewrite ?elem_of_app in Hx';
    repeat (destruct Hx' as [Hx'|Hx']; [other_prefix|]); other_prefix.
Qed.

Lemma qualify_three (name layer field : string) (i : nat) :
  name <> ""%string -> layer <> ""%string ->
  qualify (qualify (qualify name (pretty i)) layer) field
  = qualify name (qualify (pretty i) (qualify layer field)).
Proof.
  intros Hname Hlayer.
  rewrite (qualify_nested _ layer field Hlayer).
  rewrite (qualify_nested name (pretty i) _ (pretty_nat_nonempty i)).
  rewrite (qualify_nonempty (pretty i)) by apply pretty_nat_nonempty.
  now rewrite (qualify_nonempty layer) by assumption.
Qed.

(** X7: in the world that [make] returns, every named parameter of the
    network is found in the dictionary of parameters under its own name,
    holding the value drawn for that name and shape, and the dictionary has
    exactly as many entries as the network has parameters: no entry is lost
    to a clash of names. *)
Theorem make_state_dict_lookup (tensor : Type) (L : Torch tensor)
    (get_dataloader : transform -> transform -> Z
                      -> DataLoader tensor * DataLoader tensor)
    (cfg : config.t) (w0 : World tensor) (tl tel : DataLoader tensor) :
  make get_dataloader cfg = Ok (w0, tl, tel) ->
  (forall (name : string) (shape : list Z),
     (name, shape) ∈ ResNet_parameters (net (model w0)) ->
     state_dict (model w0) !! name = Some (init_parameter name shape))
  /\ size (state_dict (model w0)) = length (ResNet_parameters (net (model w0))).
Proof.
  intros Hmake. rewrite (make_state_dict _ _ _ _ _ Hmake).
  assert (Hnames : NoDup ((fun p : string * list Z =>
                             (p.1, init_parameter p.1 p.2))
                          <$> ResNet_parameters (net (model w0))).*1).
  { rewrite <- list_fmap_compose.
    exact (NoDup_ResNet_parameters (net (model w0))). }
  split.
  - intros name shape Hin. apply elem_of_list_to_map_1; [exact Hnames|].
    apply (list_elem_of_fmap_2 (fun p : string * list Z =>
                                  (p.1, init_parameter p.1 p.2))
             _ (name, shape) Hin).
  - rewrite map_size_list_to_map by exact Hnames. apply length_fmap.
Qed.

Lemma make_state_dict_lookup_witness :
  exists (w0 : World (list Z)) (tl tel : DataLoader (list Z)),
    make one_batch_loaders hyperparameters = Ok (w0, tl, tel)
    /\ state_dict (model w0) !! "stack3.2.projection_shortcut.weight"%string
       = Some [64; 32; 1; 1]
    /\ size (state_dict (model w0)) = 58%nat.
Proof.
  pose proof (make_state_dict_lookup (list Z) shape_torch one_batch_loaders
                hyperparameters) as Hlookup.
  unfold make in *. rewrite ResNet_init_ok in *.
  cbn [mbind result_bind mret result_ret one_batch_loaders] in *.
  eexists _, _, _. split; [reflexivity|].
  destruct (Hlookup _ _ _ eq_refl) as [Hfind Hsize]. split.
  - apply (Hfind "stack3.2.projection_shortcut.weight"%string [64; 32; 1; 1]).
    apply (bool_decide_unpack _). vm_compute. exact I.
  - rewrite Hsize. vm_compute. reflexivity.
Defined.

Lemma block_layer_parameters (b : ResidualBlock) (layer field : string) :
  layer ∈ ["conv1"; "conv2"; "projection_shortcut"]%string ->
  field ∈ ["weight"; "bias"]%string ->
  exists shape : list Z,
    (qualify layer field, shape) ∈ ResidualBlock_parameters b.
Proof.
  rewrite !elem_of_cons, !elem_of_nil.
  intros [->|[->|[->|[]]]] [->|[->|[]]]; eexists;
    repeat first [apply list_elem_of_here | apply list_elem_of_further].
Qed.

(** X8: every name under which the forward pass looks up a weight or a
    bias (for the stem, for the head, and for the three convolutions of the
    block at any index of any stage) has an entry in the dictionary of
    parameters of the world that [make] returns. *)
Theorem forward_keys_present (tensor : Type) (L : Torch tensor)
    (get_dataloader : transform -> transform -> Z
                      -> DataLoader tensor * DataLoader tensor)
    (cfg : config.t) (w0 : World tensor) (tl tel : DataLoader tensor) :
  make get_dataloader cfg = Ok (w0, tl, tel) ->
  (forall k : string,
     k ∈ layer_keys "" "conv1" ++ layer_keys "" "fully_connected" ->
     is_Some (state_dict (model w0) !! k))
  /\ (forall (name : string) (blocks : list ResidualBlock) (i : nat)
             (b : ResidualBlock) (layer k : string),
        (name, blocks) ∈ ResNet_stacks (net (model w0)) ->
        blocks !! i = Some b ->
        layer ∈ ["conv1"; "conv2"; "projection_shortcut"]%string ->
        k ∈ layer_keys (qualify name (pretty i)) layer ->
        is_Some (state_dict (model w0) !! k)).
Proof.
  intros Hmake.
  pose proof (fun p => make_state_dict_keys get_dataloader cfg w0 tl tel p Hmake)
    as Hkeys.
  split.
  - intros k Hk. unfold layer_keys in Hk.
    change (k ∈ ["conv1.weight"; "conv1.bias"; "fully_connected.weight";
                 "fully_connected.bias"]%string) in Hk.
    unfold ResNet_parameters in Hkeys. rewrite !elem_of_cons, elem_of_nil in Hk.
    destruct Hk as [->|[->|[->|[->|[]]]]].
    + refine (Hkeys (_, _) _). apply elem_of_app. left. apply list_elem_of_here.
    + refine (Hkeys (_, _) _). apply elem_of_app. left.
      apply list_elem_of_further, list_elem_of_here.
    + refine (Hkeys (_, _) _). rewrite !elem_of_app. do 4 right.
      apply list_elem_of_here.
    + refine (Hkeys (_, _) _). rewrite !elem_of_app. do 4 right.
      apply list_elem_of_further, list_elem_of_here.
  - intros name blocks i b layer k Hstack Hi Hlayer Hk.
    assert (Hname : name <> ""%string).
    { unfold ResNet_stacks in Hstack. rewrite !elem_of_cons, elem_of_nil in Hstack.
      destruct Hstack as [[= -> _]|[[= -> _]|[[= -> _]|[]]]]; discriminate. }
    assert (Hlayer' : layer <> ""%string).
    { rewrite !elem_of_cons, elem_of_nil in Hlayer.
      destruct Hlayer as [->|[->|[->|[]]]]; discriminate. }
    assert (exists field : string,
              field ∈ ["weight"; "bias"]%string
              /\ k = qualify (qualify (qualify name (pretty i)) layer) field)
      as (field & Hfield & ->).
    { unfold layer_keys in Hk. rewrite !elem_of_cons, elem_of_nil in Hk.
      destruct Hk as [->|[->|[]]]; eexists; (split; [|reflexivity]);
        rewrite !elem_of_cons; auto. }
    rewrite (qualify_three name layer field i Hname Hlayer').
    destruct (block_layer_parameters b layer field Hlayer Hfield) as (shape & Hin).
    apply (Hkeys (qualify name (qualify (pretty i) (qualify layer field)), shape)).
    apply (stack_parameters_in_ResNet _ name blocks Hstack).
    apply (elem_of_with_prefix name (qualify (pretty i) (qualify layer field), shape)).
    apply (Sequential_parameters_lookup blocks 0 i b Hi).
    apply (elem_of_with_prefix (pretty i) (qualify layer field, shape)). exact Hin.
Qed.

Lemma forward_keys_present_witness :
  exists (w0 : World (list Z)) (tl tel : DataLoader (list Z)),
    make one_batch_loaders hyperparameters = Ok (w0, tl, tel)
    /\ is_Some (state_dict (model w0)
                !! qualify (qualify (qualify "stack2" (pretty 1%nat)) "conv2")
                           "bias").
Proof.
  pose proof (forward_keys_present (list Z) shape_torch one_batch_loaders
                hyperparameters) as Hkeys.
  unfold make in *. rewrite ResNet_init_ok in *.
  cbn [mbind result_bind mret result_ret one_batch_loaders] in *.
  eexists _, _, _. split; [reflexivity|].
  destruct (Hkeys _ _ _ eq_refl) as [_ Hblock].
  apply (Hblock "stack2"%string
           (block_of 32 true :: replicate 2 (block_of 32 false)) 1%nat
           (block_of 32 false) "conv2"%string).
  - apply list_elem_of_further, list_elem_of_here.
  - reflexivity.
  - apply list_elem_of_further, list_elem_of_here.
  - apply list_elem_of_further, list_elem_of_here.
Defined.

(** ** Further properties of the driver *)

Section DriverSteps.
Context {tensor : Type} `{!Torch tensor}.
Implicit Types (w : World tensor) (loader train_loader test_loader : DataLoader tensor).

(** A training step either raises in the forward pass or in the loss and
    leaves the world as it was, or completes all of its updates. *)
Lemma train_batch_cases (b : tensor * tensor) w :
  (exists e : exn, train_batch b w = (Raise e, w))
  \/ (exists loss : tensor,
        train_batch b w
        = (Ok tt, snd (optimizer_step
                         (snd (backward loss (snd (optimizer_zero_grad w))))))).
Proof.
  destruct b as [images labels].
  unfold train_batch, model_call, optimizer_zero_grad, backward, optimizer_step.
  run_M.
  destruct (ResNet_forward _ images) as [outputs|e]; [|left; now exists e].
  destruct (cross_entropy outputs labels) as [loss|e]; [|left; now exists e].
  right. exists loss. reflexivity.
Qed.

Lemma train_batch_keeps_frame (b : tensor * tensor) w :
  net (model (snd (train_batch b w))) = net (model w)
  /\ training (model (snd (train_batch b w))) = training (model w)
  /\ dom (state_dict (model (snd (train_batch b w)))) = dom (state_dict (model w))
  /\ wandb_log (snd (train_batch b w)) = wandb_log w
  /\ grad_enabled (snd (train_batch b w)) = grad_enabled w.
Proof.
  destruct (train_batch_cases b w) as [[e ->]|[loss ->]];
    [repeat split; reflexivity|].
  split; [reflexivity|]. split; [reflexivity|]. split; [|split; reflexivity].
  unfold optimizer_step, backward, optimizer_zero_grad, modify.
  cbn [snd model state_dict set_optimizer set_model set_grad grad optimizer].
  rewrite dom_union_L, dom_fmap_L. apply subseteq_union_1_L.
  intros k Hk. apply elem_of_dom in Hk as [v Hv]. apply elem_of_dom.
  rewrite map_lookup_imap in Hv.
  destruct (union_with _ _ _ !! k) as [g|]; [|discriminate Hv].
  cbn [mbind option_bind] in Hv.
  destruct (state_dict (model w) !! k) as [p|]; [now exists p | discriminate Hv].
Qed.

Lemma train_batches_keep_frame (bs : list (tensor * tensor)) w :
  net (model (snd (for_each bs train_batch w))) = net (model w)
  /\ training (model (snd (for_each bs train_batch w))) = training (model w)
  /\ dom (state_dict (model (snd (for_each bs train_batch w))))
     = dom (state_dict (model w))
  /\ wandb_log (snd (for_each bs train_batch w)) = wandb_log w
  /\ grad_enabled (snd (for_each bs train_batch w)) = grad_enabled w.
Proof.
  revert w. induction bs as [|b bs IH]; intros w; [repeat split; reflexivity|].
  cbn [for_each]. unfold mbind, M_bind.
  destruct (train_batch_keeps_frame b w) as (Hn & Ht & Hd & Hl & Hg).
  destruct (train_batch b w) as [[[]|e] w']; cbn [snd] in *.
  - destruct (IH w') as (Hn' & Ht' & Hd' & Hl' & Hg').
    repeat split; congruence.
  - repeat split; assumption.
Qed.

(** The batches of an epoch run in training mode and leave the network,
    the names of its parameters and the log as they were. *)
Lemma train_one_epoch_frame train_loader w :
  net (model (snd (train_one_epoch train_loader w))) = net (model w)
  /\ training (model (snd (train_one_epoch train_loader w))) = true
  /\ dom (state_dict (model (snd (train_one_epoch train_loader w))))
     = dom (state_dict (model w))
  /\ wandb_log (snd (train_one_epoch train_loader w)) = wandb_log w.
Proof.
  unfold train_one_epoch, model_train. unfold mbind, M_bind, modify at 1.
  destruct (train_batches_keep_frame (batches train_loader)
              (set_model (set_training true) w)) as (Hn & Ht & Hd & Hl & _).
  repeat split; assumption.
Qed.

(** What one epoch does to the world when it completes. *)
Lemma train_epoch_ok train_loader test_loader (e : Z) w :
  fst (train_epoch train_loader test_loader e w) = Ok tt ->
  let w' := snd (train_epoch train_loader test_loader e w) in
  net (model w') = net (model w)
  /\ training (model w') = false
  /\ dom (state_dict (model w')) = dom (state_dict (model w))
  /\ last_epoch (scheduler w') = last_epoch (scheduler w) + 1
  /\ exists r : Metrics tensor, epoch r = e /\ wandb_log w' = wandb_log w ++ [r].
Proof.
  unfold train_epoch. unfold mbind, M_bind.
  destruct (train_one_epoch_frame train_loader w) as (Hn & _ & Hd & Hl).
  destruct (train_one_epoch_keeps_schedule train_loader w) as [_ Hs].
  destruct (train_one_epoch train_loader w) as [[[]|x] w1]; [|discriminate].
  cbn [snd] in Hn, Hd, Hl, Hs.
  pose proof (evaluate_world train_loader w1) as Hw2.
  destruct (evaluate train_loader w1) as [[[train_loss train_acc]|x] w2];
    [|discriminate].
  cbn [snd] in Hw2.
  pose proof (evaluate_world test_loader w2) as Hw3.
  destruct (evaluate test_loader w2) as [[[test_loss test_acc]|x] w3];
    [|discriminate].
  cbn [snd] in Hw3. subst w3 w2. intros _.
  unfold wandb_log_record, scheduler_step, modify. cbn.
  rewrite Hn, Hd, Hl, Hs. do 4 (split; [reflexivity|]).
  eexists (mkMetrics _ _ _ _ _). split; reflexivity.
Qed.

(** What one epoch leaves behind when it raises. *)
Lemma train_epoch_frame train_loader test_loader (e : Z) w :
  let w' := snd (train_epoch train_loader test_loader e w) in
  net (model w') = net (model w)
  /\ dom (state_dict (model w')) = dom (state_dict (model w)).
Proof.
  unfold train_epoch. unfold mbind, M_bind.
  destruct (train_one_epoch_frame train_loader w) as (Hn & _ & Hd & _).
  destruct (train_one_epoch train_loader w) as [[[]|x] w1];
    cbn [snd] in Hn, Hd; [|split; assumption].
  pose proof (evaluate_world train_loader w1) as Hw2.
  destruct (evaluate train_loader w1) as [[[train_loss train_acc]|x] w2];
    cbn [snd] in Hw2; subst w2; [|split; assumption].
  pose proof (evaluate_world test_loader (set_model (set_training false) w1)) as Hw3.
  destruct (evaluate test_loader _) as [[[test_loss test_acc]|x] w3];
    cbn [snd] in Hw3; subst w3; [|split; assumption].
  unfold wandb_log_record, scheduler_step, modify. cbn. split; assumption.
Qed.

Lemma train_epochs_frame train_loader test_loader (es : list Z) w :
  let w' := snd (for_each es (train_epoch train_loader test_loader) w) in
  net (model w') = net (model w)
  /\ dom (state_dict (model w')) = dom (state_dict (model w)).
Proof.
  revert w. induction es as [|e es IH]; intros w; [split; reflexivity|].
  cbn [for_each]. unfold mbind, M_bind. cbv zeta.
  destruct (train_epoch_frame train_loader test_loader e w) as [Hn Hd].
  destruct (train_epoch train_loader test_loader e w) as [[[]|x] w1];
    cbn [snd] in *; [|split; assumption].
  destruct (IH w1) as [Hn' Hd']. split; congruence.
Qed.

Lemma for_each_one {A} (a : A) (body : A -> M tensor unit) w :
  for_each [a] body w =
  match body a w with
  | (Ok _, w') => (Ok tt, w')
  | (Raise e, w') => (Raise e, w')
  end.
Proof. reflexivity. Qed.

Lemma train_epochs_ok train_loader test_loader (k : nat) w :
  fst (for_each (range (Z.of_nat k)) (train_epoch train_loader test_loader) w)
  = Ok tt ->
  let w' := snd (for_each (range (Z.of_nat k))
                          (train_epoch train_loader test_loader) w) in
  epoch <$> wandb_log w' = (epoch <$> wandb_log w) ++ range (Z.of_nat k)
  /\ last_epoch (scheduler w') = last_epoch (scheduler w) + Z.of_nat k
  /\ (0 < k -> training (model w') = false)%nat.
Proof.
  induction k as [|k IH].
  - intros _. change (range (Z.of_nat 0)) with (@nil Z).
    cbn [for_each]. unfold mret, M_ret. cbn [snd]. rewrite app_nil_r. split; [reflexivity|]. split; [lia | intros; lia].
  - rewrite range_succ, for_each_app.
    destruct (for_each (range (Z.of_nat k)) _ w) as [[[]|x] w1] eqn:Hprefix;
      [|discriminate].
    rewrite for_each_one. intros Hok.
    pose proof (train_epoch_ok train_loader test_loader (Z.of_nat k) w1) as Hstep.
    destruct (train_epoch train_loader test_loader (Z.of_nat k) w1)
      as [[[]|x] w2]; [|discriminate Hok].
    destruct (Hstep eq_refl) as (_ & Hmode & _ & Hlast & r & Hr & Hlog).
    destruct (IH eq_refl) as (IHlog & IHlast & _).
    cbn [snd fst] in *.
    rewrite Hlog, fmap_app, IHlog, Hlast, IHlast, <- app_assoc. cbn [fmap list_fmap].
    rewrite Hr. split; [reflexivity|]. split; [lia | intros _; exact Hmode].
Qed.

End DriverSteps.

Lemma range_to_nat (n : Z) : range n = range (Z.of_nat (Z.to_nat n)).
Proof. unfold range. now rewrite Nat2Z.id. Qed.

Lemma range_split_at (e n : Z) :
  0 <= e < n -> range n = range e ++ e :: drop (S (Z.to_nat e)) (range n).
Proof.
  intros He. rewrite (range_split e n) at 1 by lia. f_equal.
  apply drop_S. unfold range. rewrite list_lookup_fmap.
  rewrite lookup_seq_lt by lia. cbn. f_equal. lia.
Qed.

(** X9: on a split whose data set is empty [evaluate] never returns: it
    raises, and when the loader yields no batch the exception is the
    division by zero of the averaging.  The model is left in evaluation
    mode all the same. *)
Theorem evaluate_empty_dataset (tensor : Type) (L : Torch tensor)
    (loader : DataLoader tensor) (w : World tensor) :
  dataset_len loader = 0 ->
  is_ok (fst (evaluate loader w)) = false
  /\ (batches loader = [] -> fst (evaluate loader w) = Raise ZeroDivisionError)
  /\ training (model (snd (evaluate loader w))) = false.
Proof.
  intros Hlen. split; [|split].
  - unfold evaluate, model_eval. unfold mbind, M_bind, modify at 1.
    destruct (inference_mode _ _) as [[[loss_sum correct]|e] w']; [|reflexivity].
    rewrite Hlen. reflexivity.
  - intros Hnone. unfold evaluate, model_eval, inference_mode.
    rewrite Hnone, Hlen. reflexivity.
  - rewrite evaluate_world. reflexivity.
Qed.

Lemma evaluate_empty_dataset_witness :
  fst (evaluate (mkDataLoader (tensor := list Z) [] 0)
                (mkWorld (mkModel (mkResNet (mkConv2d 3 16 3 1 1) [] [] []
                                            (mkAvgPool2d 8) (mkLinear 64 10))
                                  ∅ true)
                         ∅ true (mkSGD (1 # 10) 0 0 ∅)
                         (mkMultiStepLR [82; 123] (1 # 10) 0) []))
  = Raise ZeroDivisionError.
Proof.
  apply (evaluate_empty_dataset (list Z) shape_torch); reflexivity.
Defined.



(** X11: gradients left over from earlier work never enter an update: a
    training step that completes ends in the same world whatever the
    gradients were when it started. *)
Theorem train_batch_ignores_stale_grad (tensor : Type) (L : Torch tensor)
    (batch : tensor * tensor) (w : World tensor) (stale : gmap string tensor) :
  train_batch batch (set_grad stale w)
  = (fst (train_batch batch w),
     match fst (train_batch batch w) with
     | Ok _ => snd (train_batch batch w)
     | Raise _ => set_grad stale w
     end).
Proof.
  destruct batch as [images labels].
  unfold train_batch, model_call, optimizer_zero_grad, backward, optimizer_step.
  run_M. cbn [model set_grad state_dict net].
  destruct (ResNet_forward _ images) as [outputs|e]; [|reflexivity].
  destruct (cross_entropy outputs labels) as [loss|e]; reflexivity.
Qed.

(** X12: a run of [train] that completes has sent the tracker one record
    per epoch, numbered 0, 1, ... in order, after what was logged before;
    it has stepped the scheduler once per epoch; and, if there was at least
    one epoch, it leaves the model in evaluation mode. *)
Theorem train_logs_every_epoch (tensor : Type) (L : Torch tensor)
    (train_loader test_loader : DataLoader tensor) (cfg : config.t)
    (w0 : World tensor) :
  fst (train train_loader test_loader cfg w0) = Ok tt ->
  let w := snd (train train_loader test_loader cfg w0) in
  epoch <$> wandb_log w = (epoch <$> wandb_log w0) ++ range (config.epochs cfg)
  /\ last_epoch (scheduler w)
     = last_epoch (scheduler w0) + Z.max 0 (config.epochs cfg)
  /\ (1 <= config.epochs cfg -> training (model w) = false).
Proof.
  intros Hok w.
  assert (Htrain : train train_loader test_loader cfg w0
                   = for_each (range (config.epochs cfg))
                              (train_epoch train_loader test_loader) w0).
  { unfold train. unfold mbind, M_bind, wandb_watch, mret, M_ret.
    destruct (for_each _ _ w0) as [[[]|x] w1]; reflexivity. }
  subst w. rewrite Htrain in Hok |- *.
  pose proof (train_epochs_ok train_loader test_loader
                (Z.to_nat (config.epochs cfg)) w0) as Hepochs.
  rewrite <- range_to_nat in Hepochs.
  destruct (Hepochs Hok) as (Hlog & Hlast & Hmode).
  split; [exact Hlog|]. split; [rewrite Hlast; lia|].
  intros Hone. apply Hmode. lia.
Qed.

Lemma train_logs_every_epoch_witness :
  exists (w0 : World (list Z)) (tl tel : DataLoader (list Z)),
    make one_batch_loaders (config.mk 1 4 (1 # 10) 5 0 0) = Ok (w0, tl, tel)
    /\ epoch <$> wandb_log (snd (train tl tel (config.mk 1 4 (1 # 10) 5 0 0) w0))
       = (epoch <$> wandb_log w0) ++ range 5.
Proof.
  pose proof (train_logs_every_epoch (list Z) shape_torch) as Hlogs.
  unfold make. rewrite ResNet_init_ok.
  cbn [mbind result_bind mret result_ret one_batch_loaders].
  eexists _, _, _. split; [reflexivity|].
  match goal with
  | |- epoch <$> wandb_log (snd (train ?tl ?tel ?cfg ?w0)) = _ =>
      assert (Hok : fst (train tl tel cfg w0) = Ok tt) by (vm_compute; reflexivity);
      destruct (Hlogs tl tel cfg w0 Hok) as [Hlog _]
  end.
  exact Hlog.
Defined.

(** X13: the first epoch that raises ends the run: if the run reaches
    epoch [e] and that epoch raises, [train] raises the same exception in
    the world the epoch left, and no later epoch is started. *)
Theorem train_aborts_at_first_failure (tensor : Type) (L : Torch tensor)
    (train_loader test_loader : DataLoader tensor) (cfg : config.t)
    (w0 : World tensor) (e : Z) (x : exn) :
  0 <= e < config.epochs cfg ->
  fst (train_until train_loader test_loader e w0) = Ok tt ->
  fst (train_epoch train_loader test_loader e
                   (snd (train_until train_loader test_loader e w0))) = Raise x ->
  train train_loader test_loader cfg w0
  = (Raise x,
     snd (train_epoch train_loader test_loader e
                      (snd (train_until train_loader test_loader e w0)))).
Proof.
  intros He Hreach Hraise. unfold train.
  transitivity (for_each (range e ++ e :: drop (S (Z.to_nat e))
                                              (range (config.epochs cfg)))
                         (train_epoch train_loader test_loader) w0);
    [now rewrite <- range_split_at by lia|].
  rewrite for_each_app. fold (train_until train_loader test_loader e).
  destruct (train_until train_loader test_loader e w0) as [[[]|y] w1];
    [|discriminate Hreach].
  cbn [snd] in Hraise |- *. cbn [for_each]. unfold mbind, M_bind.
  destruct (train_epoch train_loader test_loader e w1) as [[[]|y] w2];
    [discriminate Hraise|].
  cbn [fst snd] in Hraise |- *. now injection Hraise as ->.
Qed.

Lemma train_aborts_at_first_failure_witness :
  let bad := mkDataLoader (tensor := list Z) [([4; 1; 32; 32], [4])] 4 in
  let w0 := mkWorld (mkModel (mkResNet (mkConv2d 3 16 3 1 1) [] [] []
                                       (mkAvgPool2d 8) (mkLinear 64 10))
                             (list_to_map [("conv1.weight"%string, [16; 3; 3; 3]);
                                           ("conv1.bias"%string, [16])])
                             true)
                    ∅ true (mkSGD (1 # 10) 0 0 ∅)
                    (mkMultiStepLR [82; 123] (1 # 10) 0) [] in
  fst (train bad bad hyperparameters w0) = Raise RuntimeError.
Proof.
  cbv zeta.
  rewrite (train_aborts_at_first_failure (list Z) shape_torch _ _ hyperparameters
             _ 0 RuntimeError); [reflexivity | cbn; lia | reflexivity |].
  vm_compute. reflexivity.
Defined.

(** X14: whatever happens during [train], completion or exception at any
    point, the network is the one it started with and the dictionary of
    parameters has the same names: training changes values only. *)
Theorem train_keeps_network (tensor : Type) (L : Torch tensor)
    (train_loader test_loader : DataLoader tensor) (cfg : config.t)
    (w0 : World tensor) :
  let w := snd (train train_loader test_loader cfg w0) in
  net (model w) = net (model w0)
  /\ dom (state_dict (model w)) = dom (state_dict (model w0)).
Proof.
  cbv zeta. unfold train. unfold mbind, M_bind, wandb_watch, mret, M_ret.
  apply (train_epochs_frame train_loader test_loader
           (range (config.epochs cfg)) w0).
Qed.

(** X15: every training step of an epoch runs with the model in training
    mode, whatever mode the previous epoch left it in, however many steps
    have been taken and whether or not one of them raised. *)
Theorem train_steps_in_training_mode (tensor : Type) (L : Torch tensor)
    (bs : list (tensor * tensor)) (w : World tensor) :
  training (model (snd (for_each bs train_batch (snd (model_train w))))) = true.
Proof.
  destruct (train_batches_keep_frame bs (snd (model_train w)))
    as (_ & -> & _). reflexivity.
Qed.

(** ** The pipeline *)

Section PipelineFacts.
Context {tensor : Type} `{!Torch tensor}.

Lemma train_as_loop (train_loader test_loader : DataLoader tensor)
    (cfg : config.t) (w0 : World tensor) :
  train train_loader test_loader cfg w0
  = for_each (range (config.epochs cfg))
             (train_epoch train_loader test_loader) w0.
Proof.
  unfold train. unfold mbind, M_bind, wandb_watch, mret, M_ret.
  destruct (for_each _ _ w0) as [[[]|x] w1]; reflexivity.
Qed.

Lemma make_log_empty
    (get_dataloader : transform -> transform -> Z
                      -> DataLoader tensor * DataLoader tensor)
    (cfg : config.t) (w0 : World tensor) (tl tel : DataLoader tensor) :
  make get_dataloader cfg = Ok (w0, tl, tel) ->
  wandb_log w0 = []
  /\ ResNet_init (config.n cfg) = Ok (net (model w0)).
Proof.
  unfold make. destruct (get_dataloader _ _ _) as [tl' tel'].
  rewrite ResNet_init_ok. cbn [mbind result_bind mret result_ret].
  intros [= <- <- <-]. split; reflexivity.
Qed.

End PipelineFacts.

(** X16: when [model_pipeline] completes, the file "model.pth" holds a
    dictionary with exactly the names of the parameters of the network
    built for the configured depth (the other files are as they were), the
    file has been uploaded once, one artifact named "resnet" has been
    logged with the configuration as metadata and no file attached, and
    the tracker has received one record per configured epoch, in order. *)
Theorem model_pipeline_checkpoint (tensor : Type) (L : Torch tensor)
    (get_dataloader : transform -> transform -> Z
                      -> DataLoader tensor * DataLoader tensor)
    (project : string) (cfg : config.t) (out : Outside tensor) :
  fst (model_pipeline get_dataloader project cfg out) = Ok tt ->
  let out' := snd (model_pipeline get_dataloader project cfg out) in
  exists (net : ResNet) (checkpoint : gmap string tensor) (a : Artifact),
    ResNet_init (config.n cfg) = Ok net
    /\ files out' = <["model.pth"%string := checkpoint]> (files out)
    /\ dom checkpoint = list_to_set (ResNet_parameters net).*1
    /\ uploaded out' = uploaded out ++ ["model.pth"%string]
    /\ artifacts out' = artifacts out ++ [a]
    /\ artifact_name a = "resnet"%string
    /\ artifact_metadata a = cfg
    /\ artifact_files a = []
    /\ epoch <$> tracked out'
       = (epoch <$> tracked out) ++ range (config.epochs cfg).
Proof.
  unfold model_pipeline.
  destruct (make get_dataloader cfg) as [[[w0 tl] tel]|x] eqn:Hmake;
    [|discriminate].
  pose proof (train_epochs_frame tl tel (range (config.epochs cfg)) w0) as Hframe.
  pose proof (train_epochs_ok tl tel (Z.to_nat (config.epochs cfg)) w0) as Hlog.
  rewrite <- range_to_nat, <- train_as_loop in Hlog.
  rewrite <- train_as_loop in Hframe. cbv zeta in Hframe, Hlog.
  destruct (train tl tel cfg w0) as [[[]|x] w] eqn:Htrain; [|discriminate].
  intros _. cbn [fst snd] in *.
  destruct Hframe as [Hnet Hdom]. destruct (Hlog eq_refl) as (Hepochs & _ & _).
  destruct (make_log_empty _ _ _ _ _ Hmake) as [Hempty Hinit].
  eexists (net (model w0)), (state_dict (model w)), _.
  split; [exact Hinit|]. split; [reflexivity|].
  split.
  { rewrite Hdom, (make_state_dict _ _ _ _ _ Hmake), dom_list_to_map_L.
    now rewrite <- list_fmap_compose. }
  do 5 (split; [reflexivity|]).
  unfold track, log_artifact, wandb_save, torch_save. cbn [tracked].
  rewrite fmap_app, Hepochs, Hempty. reflexivity.
Qed.

Lemma model_pipeline_checkpoint_witness :
  let out := mkOutside (tensor := list Z) ∅ [] [] [] in
  uploaded (snd (model_pipeline one_batch_loaders "resnet"
                                (config.mk 1 4 (1 # 10) 2 0 0) out))
  = ["model.pth"%string].
Proof.
  cbv zeta.
  destruct (model_pipeline_checkpoint (list Z) shape_torch one_batch_loaders
              "resnet" (config.mk 1 4 (1 # 10) 2 0 0)
              (mkOutside (tensor := list Z) ∅ [] [] []))
    as (net & checkpoint & a & _ & _ & _ & Hup & _).
  - vm_compute. reflexivity.
  - exact Hup.
Defined.

(** X17: when [model_pipeline] raises, no checkpoint is written, uploaded
    or registered: files, uploads and artifacts are as they were. *)
Theorem model_pipeline_failure (tensor : Type) (L : Torch tensor)
    (get_dataloader : transform -> transform -> Z
                      -> DataLoader tensor * DataLoader tensor)
    (project : string) (cfg : config.t) (out : Outside tensor) (x : exn) :
  fst (model_pipeline get_dataloader project cfg out) = Raise x ->
  let out' := snd (model_pipeline get_dataloader project cfg out) in
  files out' = files out
  /\ uploaded out' = uploaded out
  /\ artifacts out' = artifacts out.
Proof.
  unfold model_pipeline.
  destruct (make get_dataloader cfg) as [[[w0 tl] tel]|y];
    [|intros _; repeat split].
  destruct (train tl tel cfg w0) as [[[]|y] w]; [discriminate|].
  intros _. repeat split.
Qed.

Lemma model_pipeline_failure_witness :
  let out := mkOutside (tensor := list Z) ∅ [] [] [] in
  let gray := fun (_ _ : transform) (_ : Z) =>
                (mkDataLoader (tensor := list Z) [([4; 1; 32; 32], [4])] 4,
                 mkDataLoader (tensor := list Z) [([4; 1; 32; 32], [4])] 4) in
  files (snd (model_pipeline gray "resnet" (config.mk 1 4 (1 # 10) 2 0 0) out))
  = ∅.
Proof.
  cbv zeta.
  refine (proj1 (model_pipeline_failure (list Z) shape_torch _ "resnet"
                   (config.mk 1 4 (1 # 10) 2 0 0)
                   (mkOutside (tensor := list Z) ∅ [] [] []) RuntimeError _)).
  vm_compute. reflexivity.
Defined.
